(** * Kingtech school management backend: a model of [server.js]

    The routes of [server.js] are embedded as computations in a small
    state-and-exception monad over a [world]: the four document collections,
    the messages handed to the mail transport and the console.  Request
    bodies are JSON objects, modelled as finite maps from keys to JavaScript
    values, so that the truthiness tests and the [typeof] guards of the
    handlers can be written as they are in the source. *)

From Stdlib Require Import ZArith Sorted.
From stdpp Require Import base option list strings gmap.

Local Open Scope string_scope.

(** ** JavaScript values of a parsed JSON body *)

(** [JObj] stands for any array or object: the handlers only test such a
    value for truthiness or for its [typeof]. [JUndefined] is what reading
    an absent key gives. Numbers are the integers. *)
Inductive jsval : Type :=
  | JUndefined
  | JNull
  | JBool (b : bool)
  | JNum (n : Z)
  | JStr (s : string)
  | JObj.

#[global] Instance jsval_eq_dec : EqDecision jsval.
Proof. solve_decision. Defined.

(** ToBoolean: what [!v] and [if (v)] test. *)
Definition truthy (v : jsval) : bool :=
  match v with
  | JUndefined | JNull => false
  | JBool b => b
  | JNum n => negb (Z.eqb n 0)
  | JStr s => negb (String.eqb s "")
  | JObj => true
  end.

Definition typeof (v : jsval) : string :=
  match v with
  | JUndefined => "undefined"
  | JNull => "object"
  | JBool _ => "boolean"
  | JNum _ => "number"
  | JStr _ => "string"
  | JObj => "object"
  end.

(** [a || b] *)
Definition js_or (a b : jsval) : jsval := if truthy a then a else b.

(** [a === b] against a primitive. *)
Definition strict_eq (a b : jsval) : bool := bool_decide (a = b).

Abbreviation json := (gmap string jsval).

(** [const { k } = req.body] *)
Definition field (k : string) (body : json) : jsval :=
  default JUndefined (body !! k).

(** ** Documents (the schemas of lines 38-75) *)

Record payment := Payment {
  p_id : nat;
  amount : Z;
  date : string }.

Record student := Student {
  s_id : nat;
  s_name : string;
  s_age : Z;
  s_class : string;
  s_fees_due : Z;
  s_fees_payments : list payment }.

Record teacher := Teacher {
  t_id : nat;
  t_name : string;
  t_subject : string;
  t_role : string;
  t_classTeacherClass : string;
  t_email : string }.

Record class := Class {
  c_id : nat;
  c_name : string;
  c_teacher : string;
  c_leader : string }.

Record announcement := Announcement {
  a_id : nat;
  a_text : string;
  a_createdAt : nat }.

(** A message handed to the mail transport. *)
Record message := Message {
  m_to : string;
  m_from : string;
  m_subject : string;
  m_text : string }.

(** A thrown error: [err.message] and, for the transport, [err.response.body]. *)
Record exn := Exn {
  response_body : option string;
  err_message : string }.

Inductive log_line : Type :=
  | console_log (line : string)
  | console_error (tag : string) (detail : string).

(** ** The world a request runs in *)

Record world := World {
  students : list student;
  teachers : list teacher;
  classes : list class;
  announcements : list announcement;
  next_id : nat;          (* the next identifier the driver hands out *)
  now : nat;              (* Date.now *)
  outbox : list message;  (* every message passed to sgMail.send, in order *)
  console : list log_line }.

Definition set_students (l : list student) (w : world) : world :=
  World l (teachers w) (classes w) (announcements w) (next_id w) (now w) (outbox w) (console w).
Definition set_teachers (l : list teacher) (w : world) : world :=
  World (students w) l (classes w) (announcements w) (next_id w) (now w) (outbox w) (console w).
Definition set_classes (l : list class) (w : world) : world :=
  World (students w) (teachers w) l (announcements w) (next_id w) (now w) (outbox w) (console w).
Definition set_announcements (l : list announcement) (w : world) : world :=
  World (students w) (teachers w) (classes w) l (next_id w) (now w) (outbox w) (console w).
Definition set_next_id (n : nat) (w : world) : world :=
  World (students w) (teachers w) (classes w) (announcements w) n (now w) (outbox w) (console w).
Definition set_outbox (l : list message) (w : world) : world :=
  World (students w) (teachers w) (classes w) (announcements w) (next_id w) (now w) l (console w).
Definition set_console (l : list log_line) (w : world) : world :=
  World (students w) (teachers w) (classes w) (announcements w) (next_id w) (now w) (outbox w) l.

(** ** What the code calls into but does not define

    The schema casts of the document driver, the string conversion of a
    template literal and the mail transport are outside [server.js]. They are
    an interface here; the laws say only what they do on values that already
    have the type asked for. [None] from a cast is the driver's CastError. *)
Class Environment := {
  castString : jsval → option string;
  castNumber : jsval → option Z;
  toString : jsval → string;
  CastError : exn;
  ValidationError : exn;
  DocumentNotFoundError : exn;
  transport : message → option exn;
  EMAIL_FROM : option string;
  castString_str : ∀ s, castString (JStr s) = Some s;
  castNumber_num : ∀ n, castNumber (JNum n) = Some n;
  toString_str : ∀ s, toString (JStr s) = s }.

(** ** The monad of a handler: state plus exceptions *)

Definition M (A : Type) : Type := world → (exn + A) * world.

#[global] Instance M_ret : MRet M := λ A a w, (inr a, w).
#[global] Instance M_bind : MBind M := λ A B f m w,
  match m w with
  | (inl e, w') => (inl e, w')
  | (inr a, w') => f a w'
  end.

Definition throw {A} (e : exn) : M A := λ w, (inl e, w).
Definition try_catch {A} (m : M A) (handler : exn → M A) : M A := λ w,
  match m w with
  | (inl e, w') => handler e w'
  | (inr a, w') => (inr a, w')
  end.
Definition gets {A} (f : world → A) : M A := λ w, (inr (f w), w).
Definition modify (f : world → world) : M unit := λ w, (inr tt, f w).
Definition log (l : log_line) : M unit :=
  modify (λ w, set_console (console w ++ [l]) w).

(** A cast that fails throws. *)
Definition cast {env : Environment} {A} (o : option A) : M A :=
  match o with Some a => mret a | None => throw CastError end.

(** The driver draws the identifier of a document when it is constructed. *)
Definition fresh_id : M nat := λ w, (inr (next_id w), set_next_id (S (next_id w)) w).

(** ** Schema validation on save ([required: true]) *)

Definition nonempty (s : string) : bool := negb (String.eqb s "").

Definition validate_student (s : student) : bool :=
  nonempty (s_name s) && nonempty (s_class s).
Definition validate_teacher (t : teacher) : bool :=
  nonempty (t_name t) && nonempty (t_subject t) && nonempty (t_role t) && nonempty (t_email t).
Definition validate_class (c : class) : bool := nonempty (c_name c).
Definition validate_announcement (a : announcement) : bool := nonempty (a_text a).

Definition has_id {A} (id_of : A → nat) (id : nat) (d : A) : bool :=
  bool_decide (id_of d = id).

(** Writing back a document that was loaded: the entry with its identifier
    is replaced where it stands. *)
Definition replace_doc {A} (id_of : A → nat) (d : A) (l : list A) : list A :=
  map (λ x, if has_id id_of (id_of d) x then d else x) l.

(** ** The document driver, per model *)

(** The [:id] of a path as the driver reads it: an identifier, or a string
    that is none. Casting the latter to an identifier throws. The routes
    that delete take the parameter; the routes that look a record up are
    written for an identifier. *)
Inductive id_param : Type :=
  | well_formed (id : nat)
  | malformed (raw : string).

Coercion well_formed : nat >-> id_param.

Section Driver.
Context {env : Environment}.

(** [new Student({...})]: the fields are cast to the schema types. The
    driver reports a failed cast when the document is saved; every handler
    saves right after it constructs, so the error is raised here. *)
Definition new_Student (name age sclass due : jsval) : M student :=
  id ← fresh_id;
  name ← cast (castString name);
  age ← cast (castNumber age);
  sclass ← cast (castString sclass);
  due ← cast (castNumber due);
  mret (Student id name age sclass due []).

Definition new_Payment (amount date : jsval) : M payment :=
  id ← fresh_id;
  amount ← cast (castNumber amount);
  date ← cast (castString date);
  mret (Payment id amount date).

Definition new_Teacher (name subject role email classTeacherClass : jsval) : M teacher :=
  id ← fresh_id;
  name ← cast (castString name);
  subject ← cast (castString subject);
  role ← cast (castString role);
  email ← cast (castString email);
  classTeacherClass ← cast (castString classTeacherClass);
  mret (Teacher id name subject role classTeacherClass email).

(** [teacher] and [leader] take their default. *)
Definition new_Class (doc : json) : M class :=
  id ← fresh_id;
  name ← cast (castString (field "name" doc));
  mret (Class id name "" "").

Definition new_Announcement (text : jsval) : M announcement :=
  id ← fresh_id;
  text ← cast (castString text);
  createdAt ← gets now;
  mret (Announcement id text createdAt).

Definition Student_findById (id : nat) : M (option student) :=
  gets (λ w, List.find (has_id s_id id) (students w)).

(** [save] of a document made by [new]. *)
Definition Student_save_new (s : student) : M student :=
  if validate_student s
  then _ ← modify (λ w, set_students (students w ++ [s]) w); mret s
  else throw ValidationError.

(** [save] of a document that was loaded. *)
Definition Student_save (s : student) : M student :=
  if validate_student s then
    found ← Student_findById (s_id s);
    match found with
    | Some _ => _ ← modify (λ w, set_students (replace_doc s_id s (students w)) w); mret s
    | None => throw DocumentNotFoundError
    end
  else throw ValidationError.

Definition Student_findByIdAndDelete (id : id_param) : M unit :=
  match id with
  | well_formed id =>
      modify (λ w, set_students (List.filter (λ s, negb (has_id s_id id s)) (students w)) w)
  | malformed _ => throw CastError
  end.

Definition Teacher_findById (id : nat) : M (option teacher) :=
  gets (λ w, List.find (has_id t_id id) (teachers w)).

(** The filter [{ role, classTeacherClass, _id: { $ne } }] of the two
    exclusivity queries; [q_id_ne = None] when the filter has no [_id]. *)
Record teacher_query := TeacherQuery {
  q_role : string;
  q_classTeacherClass : jsval;
  q_id_ne : option nat }.

Definition matches (role cls : string) (id_ne : option nat) (t : teacher) : bool :=
  bool_decide (t_role t = role) && bool_decide (t_classTeacherClass t = cls)
  && match id_ne with Some i => negb (has_id t_id i t) | None => true end.

Definition Teacher_findOne (q : teacher_query) : M (option teacher) :=
  cls ← cast (castString (q_classTeacherClass q));
  gets (λ w, List.find (matches (q_role q) cls (q_id_ne q)) (teachers w)).

(** [Teacher.find({ email: { $exists: true, $ne: '' } })] *)
Definition Teacher_find_with_email : M (list teacher) :=
  gets (λ w, List.filter (λ t, nonempty (t_email t)) (teachers w)).

Definition Teacher_save_new (t : teacher) : M teacher :=
  if validate_teacher t
  then _ ← modify (λ w, set_teachers (teachers w ++ [t]) w); mret t
  else throw ValidationError.

Definition Teacher_save (t : teacher) : M teacher :=
  if validate_teacher t then
    found ← Teacher_findById (t_id t);
    match found with
    | Some _ => _ ← modify (λ w, set_teachers (replace_doc t_id t (teachers w)) w); mret t
    | None => throw DocumentNotFoundError
    end
  else throw ValidationError.

Definition Teacher_findByIdAndDelete (id : id_param) : M unit :=
  match id with
  | well_formed id =>
      modify (λ w, set_teachers (List.filter (λ t, negb (has_id t_id id t)) (teachers w)) w)
  | malformed _ => throw CastError
  end.

Definition ClassModel_countDocuments : M nat := gets (λ w, length (classes w)).

Fixpoint new_Classes (docs : list json) : M (list class) :=
  match docs with
  | [] => mret []
  | doc :: rest => c ← new_Class doc; cs ← new_Classes rest; mret (c :: cs)
  end.

(** All documents are validated before any is written. *)
Definition ClassModel_insertMany (docs : list json) : M (list class) :=
  created ← new_Classes docs;
  if forallb validate_class created
  then _ ← modify (λ w, set_classes (classes w ++ created) w); mret created
  else throw ValidationError.

Definition Announcement_save_new (a : announcement) : M announcement :=
  if validate_announcement a
  then _ ← modify (λ w, set_announcements (announcements w ++ [a]) w); mret a
  else throw ValidationError.

(** [sgMail.send(msg)]: the message is handed over, and the call throws when
    the transport fails. *)
Definition sgMail_send (msg : message) : M unit := λ w,
  let w' := set_outbox (outbox w ++ [msg]) w in
  match transport msg with
  | Some err => (inl err, w')
  | None => (inr tt, w')
  end.

End Driver.

(** ** HTTP responses *)

Inductive payload : Type :=
  | json_error (error : string)
  | json_student (s : student)
  | json_teacher (t : teacher)
  | json_classes (l : list class)
  | json_announcement (a : announcement)
  | no_content.

Record response := Response {
  status : nat;
  sent : payload }.

Definition dquote : string := String (Ascii.ascii_of_nat 34) "".

Definition CLASS_TEACHER : string := "Class Teacher".

Section Routes.
Context {env : Environment}.

(** ** Helper: the mail to the teachers (lines 78-102) *)

Definition announcement_mail (teacher : teacher) (announcementText : string) : message :=
  {| m_to := t_email teacher;
     m_from := match EMAIL_FROM with
               | Some from => if nonempty from then from
                              else "Kingtech School <kingsson128@gmail.com>"
               | None => "Kingtech School <kingsson128@gmail.com>"
               end;
     m_subject := " New School Announcement";
     m_text := announcementText |}.

(** The [for ... of] loop: an [await] that throws leaves the loop. *)
Fixpoint send_each (announcementText : string) (teachers : list teacher) : M unit :=
  match teachers with
  | [] => mret tt
  | teacher :: rest =>
      _ ← sgMail_send (announcement_mail teacher announcementText);
      _ ← log (console_log ("✅ SendGrid sent to " ++ t_email teacher));
      send_each announcementText rest
  end.

Definition sendgrid_detail (err : exn) : string :=
  match response_body err with
  | Some b => if nonempty b then b else err_message err
  | None => err_message err
  end.

Definition sendAnnouncementEmailToTeachers (announcementText : string) : M unit :=
  try_catch
    (_ ← log (console_log "📧 SendGrid: Sending announcement to teachers...");
     teachers ← Teacher_find_with_email;
     if Nat.eqb (length teachers) 0
     then log (console_log "No teachers with email to notify")
     else send_each announcementText teachers)
    (λ err, log (console_error "SendGrid error:" (sendgrid_detail err))).

Definition server_error (route : string) (err : exn) : M response :=
  _ ← log (console_error route (err_message err));
  mret (Response 500 (json_error "Server error")).

(** [err.message || 'Server error'] in the two PATCH handlers. *)
Definition server_error_message (route : string) (err : exn) : M response :=
  _ ← log (console_error route (err_message err));
  mret (Response 500 (json_error (if nonempty (err_message err)
                                  then err_message err else "Server error"))).

(** ** Students *)

(** POST /api/students (lines 124-147) *)
Definition post_api_students (body : json) : M response :=
  try_catch
    (let name := field "name" body in
     let age := field "age" body in
     let sclass := field "class" body in
     let feesDue := field "feesDue" body in
     if negb (truthy name) || negb (truthy age) || negb (truthy sclass) || negb (truthy feesDue)
     then mret (Response 400 (json_error "name, age, class, feesDue are required"))
     else
       student ← new_Student name age sclass feesDue;
       saved ← Student_save_new student;
       mret (Response 201 (json_student saved)))
    (server_error "POST /api/students error:").

Definition set_s_name (v : string) (s : student) : student :=
  Student (s_id s) v (s_age s) (s_class s) (s_fees_due s) (s_fees_payments s).
Definition set_s_age (v : Z) (s : student) : student :=
  Student (s_id s) (s_name s) v (s_class s) (s_fees_due s) (s_fees_payments s).
Definition set_s_class (v : string) (s : student) : student :=
  Student (s_id s) (s_name s) (s_age s) v (s_fees_due s) (s_fees_payments s).
Definition set_s_fees_due (v : Z) (s : student) : student :=
  Student (s_id s) (s_name s) (s_age s) (s_class s) v (s_fees_payments s).
Definition push_payment (p : payment) (s : student) : student :=
  Student (s_id s) (s_name s) (s_age s) (s_class s) (s_fees_due s) (s_fees_payments s ++ [p]).

(** [if (typeof v === 'string') doc.path = v]: the branch [JStr] is the
    values whose [typeof] is ['string'] (lemma [typeof_string]), and the
    schema cast of a string is the string. Likewise for numbers. *)
Definition assign_string {A} (set : string → A → A) (v : jsval) (doc : A) : A :=
  match v with JStr x => set x doc | _ => doc end.
Definition assign_number {A} (set : Z → A → A) (v : jsval) (doc : A) : A :=
  match v with JNum x => set x doc | _ => doc end.

(** PATCH /api/students/:id (lines 150-170) *)
Definition patch_api_students_id (id : nat) (body : json) : M response :=
  try_catch
    (let name := field "name" body in
     let age := field "age" body in
     let sclass := field "class" body in
     let feesDue := field "feesDue" body in
     _ ← log (console_log "PATCH /api/students/:id body:");
     student ← Student_findById id;
     match student with
     | None => mret (Response 404 (json_error "Student not found"))
     | Some student =>
         let student := assign_string set_s_name name student in
         let student := assign_number set_s_age age student in
         let student := assign_string set_s_class sclass student in
         let student := assign_number set_s_fees_due feesDue student in
         saved ← Student_save student;
         mret (Response 200 (json_student saved))
     end)
    (server_error_message "PATCH /api/students/:id error:").

(** POST /api/students/:id/payments (lines 173-191) *)
Definition post_api_students_id_payments (id : nat) (body : json) : M response :=
  try_catch
    (let amount := field "amount" body in
     let date := field "date" body in
     if negb (truthy amount) || negb (truthy date)
     then mret (Response 400 (json_error "amount and date are required"))
     else
       student ← Student_findById id;
       match student with
       | None => mret (Response 404 (json_error "Student not found"))
       | Some student =>
           entry ← new_Payment amount date;
           saved ← Student_save (push_payment entry student);
           mret (Response 200 (json_student saved))
       end)
    (server_error "POST /api/students/:id/payments error:").

(** DELETE /api/students/:id (lines 194-202) *)
Definition delete_api_students_id (id : id_param) : M response :=
  try_catch
    (_ ← Student_findByIdAndDelete id;
     mret (Response 204 no_content))
    (server_error "DELETE /api/students/:id error:").

(** ** Teachers *)

Definition set_t_name (v : string) (t : teacher) : teacher :=
  Teacher (t_id t) v (t_subject t) (t_role t) (t_classTeacherClass t) (t_email t).
Definition set_t_subject (v : string) (t : teacher) : teacher :=
  Teacher (t_id t) (t_name t) v (t_role t) (t_classTeacherClass t) (t_email t).
Definition set_t_role (v : string) (t : teacher) : teacher :=
  Teacher (t_id t) (t_name t) (t_subject t) v (t_classTeacherClass t) (t_email t).
Definition set_t_email (v : string) (t : teacher) : teacher :=
  Teacher (t_id t) (t_name t) (t_subject t) (t_role t) (t_classTeacherClass t) v.
Definition set_t_classTeacherClass (v : string) (t : teacher) : teacher :=
  Teacher (t_id t) (t_name t) (t_subject t) (t_role t) v (t_email t).

Definition conflict_message (classTeacherClass : jsval) (existing : teacher) : string :=
  "Class " ++ dquote ++ toString classTeacherClass ++ dquote
  ++ " already has a class teacher (" ++ t_name existing ++ ").".

(** POST /api/teachers (lines 217-252). The inner computation yields the
    response of an early [return], if any. *)
Definition post_api_teachers (body : json) : M response :=
  try_catch
    (let name := field "name" body in
     let subject := field "subject" body in
     let role := field "role" body in
     let classTeacherClass := field "classTeacherClass" body in
     let email := field "email" body in
     if negb (truthy name) || negb (truthy subject) || negb (truthy role) || negb (truthy email)
     then mret (Response 400 (json_error "name, subject, role, email are required"))
     else
       rejected ←
         (if strict_eq role (JStr CLASS_TEACHER) && truthy classTeacherClass then
            existing ← Teacher_findOne (TeacherQuery CLASS_TEACHER classTeacherClass None);
            match existing with
            | Some existing =>
                mret (Some (Response 400 (json_error (conflict_message classTeacherClass existing))))
            | None => mret None
            end
          else mret None);
       match rejected with
       | Some res => mret res
       | None =>
           teacher ← new_Teacher name subject role email
                       (if strict_eq role (JStr CLASS_TEACHER)
                        then js_or classTeacherClass (JStr "") else JStr "");
           saved ← Teacher_save_new teacher;
           mret (Response 201 (json_teacher saved))
       end)
    (server_error "POST /api/teachers error:").

(** PATCH /api/teachers/:id (lines 255-297). The rule check yields either
    the response of the early [return] or the teacher to save. *)
Definition patch_api_teachers_id (id : nat) (body : json) : M response :=
  try_catch
    (let name := field "name" body in
     let subject := field "subject" body in
     let role := field "role" body in
     let classTeacherClass := field "classTeacherClass" body in
     let email := field "email" body in
     teacher ← Teacher_findById id;
     match teacher with
     | None => mret (Response 404 (json_error "Teacher not found"))
     | Some teacher =>
         let teacher := assign_string set_t_name name teacher in
         let teacher := assign_string set_t_subject subject teacher in
         let teacher := assign_string set_t_role role teacher in
         let teacher := assign_string set_t_email email teacher in
         checked ←
           (if strict_eq role (JStr CLASS_TEACHER) then
              if truthy classTeacherClass then
                existing ← Teacher_findOne
                             (TeacherQuery CLASS_TEACHER classTeacherClass (Some (t_id teacher)));
                match existing with
                | Some existing =>
                    mret (inl (Response 400
                                 (json_error (conflict_message classTeacherClass existing))))
                | None =>
                    cls ← cast (castString classTeacherClass);
                    mret (inr (set_t_classTeacherClass cls teacher))
                end
              else mret (inr (set_t_classTeacherClass "" teacher))
            else mret (inr (set_t_classTeacherClass "" teacher)));
         match checked with
         | inl res => mret res
         | inr teacher =>
             saved ← Teacher_save teacher;
             mret (Response 200 (json_teacher saved))
         end
     end)
    (server_error_message "PATCH /api/teachers/:id error:").

(** DELETE /api/teachers/:id (lines 301-309) *)
Definition delete_api_teachers_id (id : id_param) : M response :=
  try_catch
    (_ ← Teacher_findByIdAndDelete id;
     mret (Response 204 no_content))
    (server_error "DELETE /api/teachers/:id error:").

(** ** Classes *)

Definition base : list json :=
  map (λ n, {[ "name" := JStr n ]})
    ["Grade 1"; "Grade 2"; "Grade 3"; "Grade 4"; "Grade 5";
     "Grade 6"; "Grade 7"; "Grade 8"; "Grade 9"].

(** POST /api/classes/init (lines 325-348) *)
Definition post_api_classes_init : M response :=
  try_catch
    (existing ← ClassModel_countDocuments;
     if Nat.ltb 0 existing
     then mret (Response 400 (json_error "Classes already initialized"))
     else
       created ← ClassModel_insertMany base;
       mret (Response 201 (json_classes created)))
    (server_error "POST /api/classes/init error:").

(** ** Announcements *)

(** POST /api/announcements (lines 381-398). The dispatch is started and
    not awaited; requests are modelled one at a time, so it runs to its end
    before the next request. *)
Definition post_api_announcements (body : json) : M response :=
  try_catch
    (let text := field "text" body in
     if negb (truthy text)
     then mret (Response 400 (json_error "text is required"))
     else
       ann ← new_Announcement text;
       saved ← Announcement_save_new ann;
       _ ← sendAnnouncementEmailToTeachers (a_text saved);
       mret (Response 201 (json_announcement saved)))
    (server_error "POST /api/announcements error:").

End Routes.

(** ** The read routes and the class update *)

(** The bodies of the routes below that [payload] has no case for. *)
Inductive listing : Type :=
  | json_payload (p : payload)
  | json_message (message : string)
  | json_students (l : list student)
  | json_teachers (l : list teacher)
  | json_class (c : class)
  | json_announcements (l : list announcement).

Record reply := Reply {
  reply_status : nat;
  reply_sent : listing }.

Definition reply_of (res : response) : reply :=
  Reply (status res) (json_payload (sent res)).

Definition set_c_teacher (v : string) (c : class) : class :=
  Class (c_id c) (c_name c) v (c_leader c).
Definition set_c_leader (v : string) (c : class) : class :=
  Class (c_id c) (c_name c) (c_teacher c) v.

(** [sort({ createdAt: -1 })]: the newest first; among announcements of the
    same instant the stored order is kept. *)
Fixpoint insert_newest_first (a : announcement) (l : list announcement) : list announcement :=
  match l with
  | [] => [a]
  | b :: rest =>
      if Nat.leb (a_createdAt b) (a_createdAt a)
      then a :: b :: rest
      else b :: insert_newest_first a rest
  end.

Definition sort_newest_first (l : list announcement) : list announcement :=
  foldr insert_newest_first [] l.

Section ReadRoutes.
Context {env : Environment}.

Definition Student_find : M (list student) := gets students.
Definition Teacher_find : M (list teacher) := gets teachers.
Definition ClassModel_find : M (list class) := gets classes.
Definition Announcement_find_sorted : M (list announcement) :=
  gets (λ w, sort_newest_first (announcements w)).

Definition ClassModel_findById (id : nat) : M (option class) :=
  gets (λ w, List.find (has_id c_id id) (classes w)).

Definition ClassModel_save (c : class) : M class :=
  if validate_class c then
    found ← ClassModel_findById (c_id c);
    match found with
    | Some _ => _ ← modify (λ w, set_classes (replace_doc c_id c (classes w)) w); mret c
    | None => throw DocumentNotFoundError
    end
  else throw ValidationError.

Definition reply_error (route : string) (err : exn) : M reply :=
  res ← server_error route err; mret (reply_of res).

(** GET / (lines 107-109) *)
Definition get_root : M reply :=
  mret (Reply 200 (json_message "Kingtech School API running with SendGrid 🚀")).

(** GET /api/students (lines 113-121) *)
Definition get_api_students : M reply :=
  try_catch
    (students ← Student_find;
     mret (Reply 200 (json_students students)))
    (reply_error "GET /api/students error:").

(** GET /api/teachers (lines 206-214) *)
Definition get_api_teachers : M reply :=
  try_catch
    (teachers ← Teacher_find;
     mret (Reply 200 (json_teachers teachers)))
    (reply_error "GET /api/teachers error:").

(** GET /api/classes (lines 313-321) *)
Definition get_api_classes : M reply :=
  try_catch
    (classes ← ClassModel_find;
     mret (Reply 200 (json_payload (json_classes classes))))
    (reply_error "GET /api/classes error:").

(** PATCH /api/classes/:id (lines 351-366) *)
Definition patch_api_classes_id (id : nat) (body : json) : M reply :=
  try_catch
    (let teacher := field "teacher" body in
     let leader := field "leader" body in
     cls ← ClassModel_findById id;
     match cls with
     | None => mret (Reply 404 (json_payload (json_error "Class not found")))
     | Some cls =>
         let cls := assign_string set_c_teacher teacher cls in
         let cls := assign_string set_c_leader leader cls in
         saved ← ClassModel_save cls;
         mret (Reply 200 (json_class saved))
     end)
    (reply_error "PATCH /api/classes/:id error:").

(** GET /api/announcements (lines 370-378) *)
Definition get_api_announcements : M reply :=
  try_catch
    (anns ← Announcement_find_sorted;
     mret (Reply 200 (json_announcements anns)))
    (reply_error "GET /api/announcements error:").

End ReadRoutes.

(** ** A concrete environment and sample data

    Strings and numbers cast to themselves and nothing else is accepted;
    the transport refuses the addresses listed in [failing]. *)

Definition reference_env (failing : list string) : Environment :=
  {| castString := λ v, match v with JStr s => Some s | _ => None end;
     castNumber := λ v, match v with JNum n => Some n | _ => None end;
     toString := λ v, match v with JStr s => s | _ => "[object Object]" end;
     CastError := Exn None "Cast failed";
     ValidationError := Exn None "Validation failed";
     DocumentNotFoundError := Exn None "No document found for query";
     transport := λ m, if bool_decide (m_to m ∈ failing)
                       then Some (Exn (Some "Bad Request") "Bad Request")
                       else None;
     EMAIL_FROM := None;
     castString_str := λ s, eq_refl;
     castNumber_num := λ n, eq_refl;
     toString_str := λ s, eq_refl |}.

Definition reliable_env : Environment := reference_env [].

Definition empty_world : world := World [] [] [] [] 0 0 [] [].

Definition teacher_A : teacher :=
  Teacher 0 "Ann" "Maths" "Class Teacher" "Grade 1" "ann@school.example".
Definition teacher_B : teacher :=
  Teacher 1 "Ben" "Art" "Teacher" "" "ben@school.example".
Definition teacher_C : teacher :=
  Teacher 2 "Cy" "Music" "Class Teacher" "Grade 2" "cy@school.example".

Definition student_S : student := Student 3 "Sam" 9 "Grade 1" 500 [].

Definition sample_world : world :=
  World [student_S] [teacher_A; teacher_B; teacher_C] [] [] 4 0 [] [].

(** Request bodies. *)
Definition body_payment : json :=
  {[ "amount" := JNum 100; "date" := JStr "2024-01-01" ]}.
Definition body_payment_in_words : json :=
  {[ "amount" := JStr "a hundred"; "date" := JStr "2024-01-01" ]}.
Definition body_zero_fees : json :=
  {[ "name" := JStr "Zed"; "age" := JNum 7; "class" := JStr "Grade 1"; "feesDue" := JNum 0 ]}.
Definition body_zero_amount : json :=
  {[ "amount" := JNum 0; "date" := JStr "2024-01-01" ]}.
Definition body_class_teacher (name cls : string) : json :=
  {[ "name" := JStr name; "subject" := JStr "Science"; "role" := JStr "Class Teacher";
     "classTeacherClass" := JStr cls; "email" := JStr "new@school.example" ]}.
Definition body_no_name : json :=
  {[ "subject" := JStr "Science"; "role" := JStr "Class Teacher";
     "classTeacherClass" := JStr "Grade 1"; "email" := JStr "new@school.example" ]}.
Definition body_plain_teacher : json :=
  {[ "name" := JStr "Dee"; "subject" := JStr "Science"; "role" := JStr "Teacher";
     "classTeacherClass" := JStr "Grade 1"; "email" := JStr "dee@school.example" ]}.
Definition body_rename : json := {[ "name" := JStr "Ann B" ]}.
Definition body_demote : json :=
  {[ "role" := JStr "Teacher"; "classTeacherClass" := JStr "Grade 1" ]}.
Definition body_same_class : json :=
  {[ "role" := JStr "Class Teacher"; "classTeacherClass" := JStr "Grade 1" ]}.
Definition body_student_patch : json :=
  {[ "name" := JStr "Samuel"; "age" := JStr "ten"; "feesDue" := JNum 450 ]}.
Definition body_announcement : json := {[ "text" := JStr "School closed Friday" ]}.

Definition class_1 : class := Class 10 "Grade 1" "" "".
Definition school_world : world :=
  World [student_S] [teacher_A; teacher_B; teacher_C] [class_1] [] 11 0 [] [].
Definition body_student : json :=
  {[ "name" := JStr "Zed"; "age" := JNum 7; "class" := JStr "Grade 1";
     "feesDue" := JNum 300 ]}.
Definition body_class_teacher_no_class : json :=
  {[ "name" := JStr "Eve"; "subject" := JStr "History"; "role" := JStr "Class Teacher";
     "email" := JStr "eve@school.example" ]}.
Definition body_class_patch : json :=
  {[ "teacher" := JStr "Nobody on the staff"; "leader" := JNum 5;
     "name" := JStr "Renamed" ]}.
Definition body_empty_name : json := {[ "name" := JStr "" ]}.

(** ** Vocabulary of the statements *)

(** What a [typeof]-guarded assignment leaves in a field: the submitted
    value when it has the type, the previous value otherwise. *)
Definition guarded_string (v : jsval) (old new : string) : Prop :=
  (typeof v = "string" → v = JStr new) ∧ (typeof v ≠ "string" → new = old).
Definition guarded_number (v : jsval) (old new : Z) : Prop :=
  (typeof v = "number" → v = JNum new) ∧ (typeof v ≠ "number" → new = old).

(** [t] is the class teacher of the class [cls]. *)
Definition class_teacher_of (cls : string) (t : teacher) : Prop :=
  t_role t = CLASS_TEACHER ∧ t_classTeacherClass t = cls.

(** At most one class teacher per class. *)
Definition exclusive (l : list teacher) : Prop :=
  ∀ t1 t2 cls, t1 ∈ l → t2 ∈ l → cls ≠ "" →
    class_teacher_of cls t1 → class_teacher_of cls t2 → t_id t1 = t_id t2.

(** The collections and the identifier counter are the same. *)
Definition same_store (w w' : world) : Prop :=
  students w' = students w ∧ teachers w' = teachers w ∧ classes w' = classes w
  ∧ announcements w' = announcements w ∧ next_id w' = next_id w.

(** The line logged after a send that did not throw. *)
Definition sent_line (t : teacher) : log_line :=
  console_log ("✅ SendGrid sent to " ++ t_email t).

(** What every route keeps: the stored students and teachers satisfy their
    schema, and no class has two class teachers. *)
Definition consistent (w : world) : Prop :=
  Forall (λ s, validate_student s = true) (students w)
  ∧ Forall (λ t, validate_teacher t = true) (teachers w)
  ∧ exclusive (teachers w).

(** The requests of the routes modelled here, served one at a time. *)
Inductive request : Type :=
  | POST_students (body : json)
  | PATCH_students (id : nat) (body : json)
  | POST_students_payments (id : nat) (body : json)
  | DELETE_students (id : id_param)
  | POST_teachers (body : json)
  | PATCH_teachers (id : nat) (body : json)
  | DELETE_teachers (id : id_param)
  | POST_classes_init
  | POST_announcements (body : json).

Definition serve {env : Environment} (r : request) : M response :=
  match r with
  | POST_students body => post_api_students body
  | PATCH_students id body => patch_api_students_id id body
  | POST_students_payments id body => post_api_students_id_payments id body
  | DELETE_students id => delete_api_students_id id
  | POST_teachers body => post_api_teachers body
  | PATCH_teachers id body => patch_api_teachers_id id body
  | DELETE_teachers id => delete_api_teachers_id id
  | POST_classes_init => post_api_classes_init
  | POST_announcements body => post_api_announcements body
  end.

(** The worlds reached from empty collections. *)
Inductive reachable {env : Environment} : world → Prop :=
  | reachable_start w :
      students w = [] → teachers w = [] → reachable w
  | reachable_serve w r :
      reachable w → reachable (snd (serve r w)).

(** Every route of [server.js]. *)
Inductive api_request : Type :=
  | Served (r : request)
  | GET_root
  | GET_students
  | GET_teachers
  | GET_classes
  | PATCH_classes (id : nat) (body : json)
  | GET_announcements.

Definition respond {env : Environment} (q : api_request) : M reply :=
  match q with
  | Served r => res ← serve r; mret (reply_of res)
  | GET_root => get_root
  | GET_students => get_api_students
  | GET_teachers => get_api_teachers
  | GET_classes => get_api_classes
  | PATCH_classes id body => patch_api_classes_id id body
  | GET_announcements => get_api_announcements
  end.

(** The collection a route writes to, if any. *)
Inductive collection : Type := Students | Teachers | Classes | Announcements.

Definition written (q : api_request) : option collection :=
  match q with
  | Served (POST_students _) | Served (PATCH_students _ _)
  | Served (POST_students_payments _ _) | Served (DELETE_students _) => Some Students
  | Served (POST_teachers _) | Served (PATCH_teachers _ _)
  | Served (DELETE_teachers _) => Some Teachers
  | Served POST_classes_init | PATCH_classes _ _ => Some Classes
  | Served (POST_announcements _) => Some Announcements
  | GET_root | GET_students | GET_teachers | GET_classes | GET_announcements => None
  end.

(** Requests served one after the other. *)
Definition serve_all {env : Environment} (rs : list request) (w : world) : world :=
  foldl (λ w r, snd (serve r w)) w rs.

Definition respond_all {env : Environment} (qs : list api_request) (w : world) : world :=
  foldl (λ w q, snd (respond q w)) w qs.

(** The same environment with another mail transport. *)
Definition with_transport (f : message → option exn) (env : Environment) : Environment :=
  {| castString := @castString env;
     castNumber := @castNumber env;
     toString := @toString env;
     CastError := @CastError env;
     ValidationError := @ValidationError env;
     DocumentNotFoundError := @DocumentNotFoundError env;
     transport := f;
     EMAIL_FROM := @EMAIL_FROM env;
     castString_str := @castString_str env;
     castNumber_num := @castNumber_num env;
     toString_str := @toString_str env |}.

(** Newest first. *)
Definition newest_first (l : list announcement) : Prop :=
  StronglySorted (λ a b, (a_createdAt b ≤ a_createdAt a)%nat) l.

(** * Properties *)

Arguments field : simpl never.

Ltac unfold_M :=
  unfold try_catch, server_error, server_error_message, log, cast, gets, modify, throw,
    fresh_id, mbind, M_bind, mret, M_ret in *.

(** ** Values and bodies *)

Lemma typeof_string (v : jsval) : typeof v = "string" ↔ ∃ s, v = JStr s.
Proof.
  split.
  - destruct v; try discriminate. eauto.
  - intros [s ->]. reflexivity.
Qed.

Lemma typeof_number (v : jsval) : typeof v = "number" ↔ ∃ n, v = JNum n.
Proof.
  split.
  - destruct v; try discriminate. eauto.
  - intros [n ->]. reflexivity.
Qed.

Lemma nonempty_true (s : string) : nonempty s = true ↔ s ≠ "".
Proof.
  unfold nonempty. destruct (String.eqb_spec s ""); cbn; split; intros; congruence.
Qed.

Lemma truthy_str (s : string) : truthy (JStr s) = true ↔ s ≠ "".
Proof. apply nonempty_true. Qed.

Lemma truthy_num (n : Z) : truthy (JNum n) = true ↔ n ≠ 0%Z.
Proof.
  unfold truthy. destruct (Z.eqb_spec n 0); cbn; split; intros; congruence.
Qed.

Lemma field_absent (k : string) (body : json) : body !! k = None → field k body = JUndefined.
Proof. unfold field. intros ->. reflexivity. Qed.

Lemma field_singleton (k : string) (v : jsval) : field k {[ k := v ]} = v.
Proof. unfold field. rewrite lookup_singleton_eq. reflexivity. Qed.

(** ** Lookup by identifier *)

Lemma find_has_id {A} (id_of : A → nat) (id : nat) (l : list A) (d : A) :
  List.find (has_id id_of id) l = Some d → id_of d = id ∧ d ∈ l.
Proof.
  intros Hf. apply List.find_some in Hf as [Hin Hid].
  unfold has_id in Hid. apply bool_decide_eq_true in Hid.
  split; [done | by apply list_elem_of_In].
Qed.

Lemma find_has_id_None {A} (id_of : A → nat) (id : nat) (l : list A) :
  List.find (has_id id_of id) l = None ↔ ∀ d, d ∈ l → id_of d ≠ id.
Proof.
  split.
  - intros Hf d Hin Hid.
    apply list_elem_of_In in Hin. apply (List.find_none _ _ Hf) in Hin.
    unfold has_id in Hin. by apply bool_decide_eq_false in Hin.
  - intros Hall. induction l as [| x l IH]; [done |]. cbn.
    unfold has_id at 1. rewrite bool_decide_eq_false_2.
    + apply IH. intros d Hd. apply Hall. by right.
    + apply Hall. by left.
Qed.

Lemma filter_absent {A} (id_of : A → nat) (id : nat) (l : list A) :
  List.find (has_id id_of id) l = None →
  List.filter (λ d, negb (has_id id_of id d)) l = l.
Proof.
  induction l as [| x l IH]; [done |]. cbn.
  destruct (has_id id_of id x); [done |]. cbn. intros Hf. by rewrite IH.
Qed.

Lemma find_after_filter {A} (id_of : A → nat) (id j : nat) (l : list A) :
  List.find (has_id id_of j) (List.filter (λ d, negb (has_id id_of id d)) l)
  = if bool_decide (j = id) then None else List.find (has_id id_of j) l.
Proof.
  induction l as [| x l IH]; cbn.
  - by case_bool_decide.
  - unfold has_id in *.
    destruct (decide (id_of x = id)) as [Hx | Hx].
    + rewrite (bool_decide_eq_true_2 _ Hx). cbn. rewrite IH.
      case_bool_decide as Hj; [done |].
      rewrite bool_decide_eq_false_2; [done | congruence].
    + rewrite (bool_decide_eq_false_2 _ Hx). cbn.
      destruct (decide (id_of x = j)) as [Hxj | Hxj].
      * rewrite (bool_decide_eq_true_2 _ Hxj).
        rewrite bool_decide_eq_false_2; [done | congruence].
      * rewrite (bool_decide_eq_false_2 _ Hxj). exact IH.
Qed.

Lemma find_replace_same {A} (id_of : A → nat) (d x : A) (l : list A) :
  List.find (has_id id_of (id_of d)) l = Some x →
  List.find (has_id id_of (id_of d)) (replace_doc id_of d l) = Some d.
Proof.
  unfold replace_doc. induction l as [| y l IH]; [done |]. cbn.
  destruct (has_id id_of (id_of d) y) eqn:Hy.
  - intros _. unfold has_id. by rewrite bool_decide_eq_true_2.
  - rewrite Hy. exact IH.
Qed.

Lemma find_replace_other {A} (id_of : A → nat) (d : A) (j : nat) (l : list A) :
  j ≠ id_of d →
  List.find (has_id id_of j) (replace_doc id_of d l) = List.find (has_id id_of j) l.
Proof.
  intros Hj. unfold replace_doc. induction l as [| y l IH]; [done |]. cbn.
  destruct (has_id id_of (id_of d) y) eqn:Hy.
  - apply bool_decide_eq_true in Hy.
    assert (has_id id_of j d = false) as -> by (apply bool_decide_eq_false_2; congruence).
    assert (has_id id_of j y = false) as -> by (apply bool_decide_eq_false_2; congruence).
    exact IH.
  - destruct (has_id id_of j y); [done | exact IH].
Qed.

Lemma replace_doc_ids {A} (id_of : A → nat) (d : A) (l : list A) :
  map id_of (replace_doc id_of d l) = map id_of l.
Proof.
  unfold replace_doc. induction l as [| y l IH]; [done |]. cbn. rewrite IH.
  destruct (has_id id_of (id_of d) y) eqn:Hy; [| done].
  apply bool_decide_eq_true in Hy. by rewrite Hy.
Qed.

Lemma elem_of_replace_doc {A} (id_of : A → nat) (d x : A) (l : list A) :
  x ∈ replace_doc id_of d l → x = d ∨ (x ∈ l ∧ id_of x ≠ id_of d).
Proof.
  unfold replace_doc. intros Hx. apply list_elem_of_fmap in Hx as [y [-> Hy]].
  destruct (has_id id_of (id_of d) y) eqn:Hid; [by left |].
  right. split; [done |]. by apply bool_decide_eq_false in Hid.
Qed.

(** ** The routes *)

Section Claims.
Context {env : Environment}.

(** *** Equations of the driver *)

Lemma Student_save_found (s x : student) (w : world) :
  validate_student s = true →
  List.find (has_id s_id (s_id s)) (students w) = Some x →
  Student_save s w = (inr s, set_students (replace_doc s_id s (students w)) w).
Proof.
  intros Hv Hf. unfold Student_save, Student_findById. rewrite Hv. unfold_M.
  by rewrite Hf.
Qed.

Lemma Student_save_invalid (s : student) (w : world) :
  validate_student s = false → Student_save s w = (inl ValidationError, w).
Proof. intros Hv. unfold Student_save. by rewrite Hv. Qed.

Lemma Teacher_save_found (t x : teacher) (w : world) :
  validate_teacher t = true →
  List.find (has_id t_id (t_id t)) (teachers w) = Some x →
  Teacher_save t w = (inr t, set_teachers (replace_doc t_id t (teachers w)) w).
Proof.
  intros Hv Hf. unfold Teacher_save, Teacher_findById. rewrite Hv. unfold_M.
  by rewrite Hf.
Qed.

Lemma Teacher_save_invalid (t : teacher) (w : world) :
  validate_teacher t = false → Teacher_save t w = (inl ValidationError, w).
Proof. intros Hv. unfold Teacher_save. by rewrite Hv. Qed.

Lemma new_Class_named (n : string) (w : world) :
  new_Class {[ "name" := JStr n ]} w
  = (inr (Class (next_id w) n "" ""), set_next_id (S (next_id w)) w).
Proof.
  unfold new_Class. unfold_M. cbn. rewrite field_singleton, castString_str. reflexivity.
Qed.

Lemma new_Classes_named (names : list string) (w : world) :
  new_Classes (map (λ n, {[ "name" := JStr n ]}) names) w
  = (inr (imap (λ i n, Class (next_id w + i) n "" "") names),
     set_next_id (next_id w + length names) w).
Proof.
  revert w. induction names as [| n names IH]; intros w.
  - cbn. unfold_M. destruct w; unfold set_next_id; cbn. by rewrite Nat.add_0_r.
  - cbn [map new_Classes]. unfold mbind at 1, M_bind. rewrite new_Class_named.
    unfold mbind at 1, M_bind. rewrite IH. unfold_M. cbn.
    rewrite Nat.add_0_r. f_equal.
    + f_equal. f_equal. apply imap_ext. intros i x _. cbn. f_equal. lia.
    + unfold set_next_id. cbn. f_equal. lia.
Qed.

(** *** Required fields *)

(** C7. A student creation whose [age] or [feesDue] is the number zero, and a
    payment whose [amount] is the number zero, are answered 400 with the
    message that lists the required fields, and nothing is written: the
    check is on truthiness, and zero is falsy. *)
Theorem zero_is_rejected_as_missing (id : nat) (body : json) (w : world) :
  (field "age" body = JNum 0 ∨ field "feesDue" body = JNum 0 →
   post_api_students body w
   = (inr (Response 400 (json_error "name, age, class, feesDue are required")), w))
  ∧ (field "amount" body = JNum 0 →
     post_api_students_id_payments id body w
     = (inr (Response 400 (json_error "amount and date are required")), w)).
Proof.
  split.
  - intros Hz. unfold post_api_students. unfold_M.
    destruct Hz as [-> | ->]; cbn.
    + destruct (truthy (field "name" body)); reflexivity.
    + destruct (truthy (field "name" body)), (truthy (field "age" body)),
        (truthy (field "class" body)); reflexivity.
  - intros Hz. unfold post_api_students_id_payments. unfold_M. rewrite Hz. reflexivity.
Qed.

(** *** The class initializer *)

(** C8. When a class exists the initializer answers 400 with the message
    that the classes are already initialized and leaves the world as it
    was; when none exists it answers 201 with nine new classes named
    Grade 1 to Grade 9, which are then exactly the stored classes. *)
Theorem classes_init_once (w : world) :
  (classes w ≠ [] →
   post_api_classes_init w
   = (inr (Response 400 (json_error "Classes already initialized")), w))
  ∧ (classes w = [] →
     ∃ created w',
       post_api_classes_init w = (inr (Response 201 (json_classes created)), w')
       ∧ classes w' = created
       ∧ length created = 9
       ∧ map c_name created
         = ["Grade 1"; "Grade 2"; "Grade 3"; "Grade 4"; "Grade 5";
            "Grade 6"; "Grade 7"; "Grade 8"; "Grade 9"]
       ∧ map c_id created = seq (next_id w) 9
       ∧ Forall (λ c, c_teacher c = "" ∧ c_leader c = "") created
       ∧ students w' = students w ∧ teachers w' = teachers w
       ∧ announcements w' = announcements w).
Proof.
  split.
  - intros Hne. unfold post_api_classes_init, ClassModel_countDocuments. unfold_M.
    destruct (classes w); [done | reflexivity].
  - intros Hnil. unfold post_api_classes_init, ClassModel_countDocuments,
      ClassModel_insertMany, base.
    unfold try_catch, gets. unfold mbind at 1, M_bind. rewrite Hnil. cbn [length Nat.ltb Nat.leb].
    unfold mbind at 1 2, M_bind. rewrite new_Classes_named.
    cbn. unfold_M. cbn. rewrite Hnil. cbn.
    eexists _, _. split; [reflexivity |]. cbn.
    repeat split; try reflexivity.
    + repeat f_equal; lia.
    + repeat constructor.
Qed.

(** *** Deleting *)

Lemma set_students_same (w : world) : set_students (students w) w = w.
Proof. by destruct w. Qed.

Lemma set_teachers_same (w : world) : set_teachers (teachers w) w = w.
Proof. by destruct w. Qed.

(** C10, as amended. Deleting a student or a teacher by a well-formed
    identifier is always answered 204 with an empty body. When no record
    has the identifier the world is left as it was; in every case no record
    with the identifier remains, the other records are found as before, and
    deleting again changes nothing. With a path parameter that is no
    identifier the driver throws, and the route answers 500 and leaves the
    collections as they were. *)
Theorem delete_is_idempotent (id : nat) (raw : string) (w : world) :
  (∃ w', delete_api_students_id id w = (inr (Response 204 no_content), w')
     ∧ (Student_findById id w = (inr None, w) → w' = w)
     ∧ Student_findById id w' = (inr None, w')
     ∧ (∀ j, j ≠ id → fst (Student_findById j w') = fst (Student_findById j w))
     ∧ delete_api_students_id id w' = (inr (Response 204 no_content), w'))
  ∧ (∃ w', delete_api_teachers_id id w = (inr (Response 204 no_content), w')
     ∧ (Teacher_findById id w = (inr None, w) → w' = w)
     ∧ Teacher_findById id w' = (inr None, w')
     ∧ (∀ j, j ≠ id → fst (Teacher_findById j w') = fst (Teacher_findById j w))
     ∧ delete_api_teachers_id id w' = (inr (Response 204 no_content), w'))
  ∧ (∃ w', delete_api_students_id (malformed raw) w
           = (inr (Response 500 (json_error "Server error")), w')
           ∧ same_store w w')
  ∧ (∃ w', delete_api_teachers_id (malformed raw) w
           = (inr (Response 500 (json_error "Server error")), w')
           ∧ same_store w w').
Proof.
  split; [| split; [| split]].
  3, 4: by eexists.
  - eexists. split; [reflexivity |].
    unfold Student_findById, gets. cbn.
    assert (Hgone : List.find (has_id s_id id)
                      (List.filter (λ s, negb (has_id s_id id s)) (students w)) = None).
    { rewrite find_after_filter. by rewrite bool_decide_eq_true_2. }
    repeat split.
    + intros [= Hf]. rewrite filter_absent by done. apply set_students_same.
    + by rewrite Hgone.
    + intros j Hj. rewrite find_after_filter. by rewrite bool_decide_eq_false_2.
    + unfold delete_api_students_id, Student_findByIdAndDelete. unfold_M. cbn.
      rewrite (filter_absent _ _ _ Hgone). reflexivity.
  - eexists. split; [reflexivity |].
    unfold Teacher_findById, gets. cbn.
    assert (Hgone : List.find (has_id t_id id)
                      (List.filter (λ t, negb (has_id t_id id t)) (teachers w)) = None).
    { rewrite find_after_filter. by rewrite bool_decide_eq_true_2. }
    repeat split.
    + intros [= Hf]. rewrite filter_absent by done. apply set_teachers_same.
    + by rewrite Hgone.
    + intros j Hj. rewrite find_after_filter. by rewrite bool_decide_eq_false_2.
    + unfold delete_api_teachers_id, Teacher_findByIdAndDelete. unfold_M. cbn.
      rewrite (filter_absent _ _ _ Hgone). reflexivity.
Qed.

(** *** Payments *)

(** C9, as amended. For a stored, valid student and a request whose
    [amount] and [date] are truthy: when the schema reads them as a number
    and a text, the route answers 200 with the student whose payments are
    the previous ones followed by one entry of that amount and date;
    [fees.due] and the other fields are as before, the student is stored
    under the same identifier, and no other student or collection changes.
    When the schema reads one of them as neither, the route answers 500 and
    no collection changes. A number and a string are always read as such,
    so such a request is answered 200. *)
Theorem payment_is_appended (id : nat) (body : json) (w : world) (s : student) :
  Student_findById id w = (inr (Some s), w) →
  validate_student s = true →
  truthy (field "amount" body) = true →
  truthy (field "date" body) = true →
  ∃ res w',
    post_api_students_id_payments id body w = (inr res, w')
    ∧ (∀ a d,
         castNumber (field "amount" body) = Some a →
         castString (field "date" body) = Some d →
         ∃ entry saved,
           res = Response 200 (json_student saved)
           ∧ amount entry = a ∧ date entry = d
           ∧ s_fees_payments saved = (s_fees_payments s ++ [entry])%list
           ∧ length (s_fees_payments saved) = S (length (s_fees_payments s))
           ∧ s_fees_due saved = s_fees_due s
           ∧ s_id saved = s_id s ∧ s_name saved = s_name s
           ∧ s_age saved = s_age s ∧ s_class saved = s_class s
           ∧ Student_findById id w' = (inr (Some saved), w')
           ∧ (∀ j, j ≠ id → fst (Student_findById j w') = fst (Student_findById j w))
           ∧ teachers w' = teachers w ∧ classes w' = classes w
           ∧ announcements w' = announcements w)
    ∧ (castNumber (field "amount" body) = None ∨ castString (field "date" body) = None →
       status res = 500 ∧ students w' = students w ∧ teachers w' = teachers w
       ∧ classes w' = classes w ∧ announcements w' = announcements w)
    ∧ (∀ a d, field "amount" body = JNum a → field "date" body = JStr d →
       status res = 200).
Proof.
  intros Hfind Hvalid Ha Hd.
  unfold Student_findById, gets in Hfind. injection Hfind as Hfind.
  destruct (find_has_id _ _ _ _ Hfind) as [Hid _].
  unfold post_api_students_id_payments, Student_findById, new_Payment.
  rewrite Ha, Hd. unfold_M. cbn. rewrite Hfind.
  destruct (castNumber (field "amount" body)) as [a |] eqn:Hca.
  2: { eexists _, _. split; [reflexivity |]. cbn. split; [done |]. split; [done |].
       intros a d Ha' _. rewrite Ha', castNumber_num in Hca. discriminate. }
  destruct (castString (field "date" body)) as [d |] eqn:Hcd.
  2: { eexists _, _. split; [reflexivity |]. cbn. split; [done |]. split; [done |].
       intros a' d' _ Hd'. rewrite Hd', castString_str in Hcd. discriminate. }
  set (entry := Payment (next_id w) a d).
  erewrite (Student_save_found (push_payment entry s)); cycle 1.
  { exact Hvalid. }
  { cbn. rewrite Hid. exact Hfind. }
  eexists _, _. split; [reflexivity |]. cbn. split; [| split; [by intros [[=] | [=]] | done]].
  intros ? ? [= <-] [= <-]. exists entry, (push_payment entry s). cbn.
  repeat split; try reflexivity.
  - by rewrite length_app, Nat.add_1_r.
  - f_equal. f_equal. rewrite <- Hid.
    apply (find_replace_same s_id (push_payment entry s) s). cbn. by rewrite Hid.
  - intros j Hj. f_equal. apply (find_replace_other s_id (push_payment entry s)).
    cbn. congruence.
Qed.

(** *** Partial updates *)

Lemma guarded_string_assign {A} (set : string → A → A) (get : A → string)
    (v : jsval) (doc : A) :
  (∀ x d, get (set x d) = x) →
  guarded_string v (get doc) (get (assign_string set v doc)).
Proof.
  intros Hgs. split.
  - intros [x ->]%typeof_string. cbn. by rewrite Hgs.
  - intros Hty. destruct v; try reflexivity. by destruct Hty.
Qed.

Lemma guarded_number_assign {A} (set : Z → A → A) (get : A → Z)
    (v : jsval) (doc : A) :
  (∀ x d, get (set x d) = x) →
  guarded_number v (get doc) (get (assign_number set v doc)).
Proof.
  intros Hgs. split.
  - intros [x ->]%typeof_number. cbn. by rewrite Hgs.
  - intros Hty. destruct v; try reflexivity. by destruct Hty.
Qed.

Lemma assign_string_keeps {A B} (set : string → A → A) (get : A → B)
    (v : jsval) (doc : A) :
  (∀ x d, get (set x d) = get d) → get (assign_string set v doc) = get doc.
Proof. intros Hk. destruct v; cbn; auto. Qed.

Lemma assign_number_keeps {A B} (set : Z → A → A) (get : A → B)
    (v : jsval) (doc : A) :
  (∀ x d, get (set x d) = get d) → get (assign_number set v doc) = get doc.
Proof. intros Hk. destruct v; cbn; auto. Qed.

(** The student route, once the student is found. *)
Lemma patch_student_found (id : nat) (body : json) (w : world) (s : student) :
  List.find (has_id s_id id) (students w) = Some s →
  let s' := assign_number set_s_fees_due (field "feesDue" body)
              (assign_string set_s_class (field "class" body)
                 (assign_number set_s_age (field "age" body)
                    (assign_string set_s_name (field "name" body) s))) in
  let w1 := set_console (console w ++ [console_log "PATCH /api/students/:id body:"]) w in
  patch_api_students_id id body w
  = if validate_student s'
    then (inr (Response 200 (json_student s')),
          set_students (replace_doc s_id s' (students w)) w1)
    else server_error_message "PATCH /api/students/:id error:" ValidationError w1.
Proof.
  intros Hfind s' w1.
  assert (Hid : s_id s' = id).
  { subst s'. rewrite assign_number_keeps, assign_string_keeps, assign_number_keeps,
      assign_string_keeps by done. by destruct (find_has_id _ _ _ _ Hfind). }
  unfold patch_api_students_id, Student_findById.
  unfold try_catch, log, modify, gets. unfold mbind at 1 2, M_bind.
  cbn [students set_console]. rewrite Hfind. fold s'.
  unfold mbind, M_bind. fold w1.
  destruct (validate_student s') eqn:Hv.
  - rewrite (Student_save_found s' s); [reflexivity | done |].
    rewrite Hid. exact Hfind.
  - rewrite Student_save_invalid by done. reflexivity.
Qed.

(** The teacher route, once the teacher is found, with the monad run. *)
Lemma patch_teacher_found (id : nat) (body : json) (w : world) (t : teacher) :
  List.find (has_id t_id id) (teachers w) = Some t →
  let t1 := assign_string set_t_email (field "email" body)
              (assign_string set_t_role (field "role" body)
                 (assign_string set_t_subject (field "subject" body)
                    (assign_string set_t_name (field "name" body) t))) in
  let failed := server_error_message "PATCH /api/teachers/:id error:" in
  let save t2 :=
    if validate_teacher t2
    then (inr (Response 200 (json_teacher t2)),
          set_teachers (replace_doc t_id t2 (teachers w)) w)
    else failed ValidationError w in
  patch_api_teachers_id id body w
  = if strict_eq (field "role" body) (JStr CLASS_TEACHER) then
      if truthy (field "classTeacherClass" body) then
        match castString (field "classTeacherClass" body) with
        | None => failed CastError w
        | Some cls =>
            match List.find (matches CLASS_TEACHER cls (Some id)) (teachers w) with
            | Some existing =>
                (inr (Response 400 (json_error
                        (conflict_message (field "classTeacherClass" body) existing))), w)
            | None => save (set_t_classTeacherClass cls t1)
            end
        end
      else save (set_t_classTeacherClass "" t1)
    else save (set_t_classTeacherClass "" t1).
Proof.
  intros Hfind t1 failed save.
  assert (Hid : t_id t1 = id).
  { subst t1. rewrite !assign_string_keeps by done.
    by destruct (find_has_id _ _ _ _ Hfind). }
  assert (Hid' : ∀ cls, t_id (set_t_classTeacherClass cls t1) = id) by done.
  unfold patch_api_teachers_id, Teacher_findOne, Teacher_save, Teacher_findById.
  unfold_M. cbn [q_classTeacherClass q_role q_id_ne teachers]. rewrite Hfind. fold t1.
  subst save. cbn beta.
  destruct (strict_eq (field "role" body) (JStr CLASS_TEACHER)).
  - destruct (truthy (field "classTeacherClass" body)).
    + destruct (castString (field "classTeacherClass" body)) as [cls |]; [| reflexivity].
      rewrite Hid.
      destruct (List.find (matches CLASS_TEACHER cls (Some id)) (teachers w))
        as [existing |]; [reflexivity |].
      destruct (validate_teacher _); [| reflexivity]. by rewrite Hid', Hfind.
    + destruct (validate_teacher _); [| reflexivity]. by rewrite Hid', Hfind.
  - destruct (validate_teacher _); [| reflexivity]. by rewrite Hid', Hfind.
Qed.

Lemma guarded_string_nonempty (v : jsval) (old new : string) :
  guarded_string v old new → nonempty old = true → v ≠ JStr "" → nonempty new = true.
Proof.
  intros [Hs Hn] Hold Hv. destruct (decide (typeof v = "string")) as [Hty | Hty].
  - apply nonempty_true. intros ->. apply Hv. by apply Hs.
  - by rewrite (Hn Hty).
Qed.

Lemma student_updates_guarded (body : json) (s : student) :
  let s' := assign_number set_s_fees_due (field "feesDue" body)
              (assign_string set_s_class (field "class" body)
                 (assign_number set_s_age (field "age" body)
                    (assign_string set_s_name (field "name" body) s))) in
  guarded_string (field "name" body) (s_name s) (s_name s')
  ∧ guarded_number (field "age" body) (s_age s) (s_age s')
  ∧ guarded_string (field "class" body) (s_class s) (s_class s')
  ∧ guarded_number (field "feesDue" body) (s_fees_due s) (s_fees_due s')
  ∧ s_id s' = s_id s ∧ s_fees_payments s' = s_fees_payments s.
Proof.
  cbn zeta. repeat split.
  all: try (rewrite ?(assign_number_keeps set_s_fees_due), ?(assign_string_keeps set_s_class),
              ?(assign_number_keeps set_s_age), ?(assign_string_keeps set_s_name) by done;
            reflexivity).
  all: destruct (field "name" body), (field "age" body), (field "class" body),
         (field "feesDue" body); cbn; intros; congruence.
Qed.

Lemma teacher_updates_guarded (body : json) (t : teacher) :
  let t1 := assign_string set_t_email (field "email" body)
              (assign_string set_t_role (field "role" body)
                 (assign_string set_t_subject (field "subject" body)
                    (assign_string set_t_name (field "name" body) t))) in
  guarded_string (field "name" body) (t_name t) (t_name t1)
  ∧ guarded_string (field "subject" body) (t_subject t) (t_subject t1)
  ∧ guarded_string (field "role" body) (t_role t) (t_role t1)
  ∧ guarded_string (field "email" body) (t_email t) (t_email t1)
  ∧ t_id t1 = t_id t ∧ t_classTeacherClass t1 = t_classTeacherClass t.
Proof.
  cbn zeta. repeat split.
  all: try (rewrite !assign_string_keeps by done; reflexivity).
  all: destruct (field "name" body), (field "subject" body), (field "role" body),
         (field "email" body); cbn; intros; congruence.
Qed.

Lemma find_by_id_run {A} (id_of : A → nat) (coll : world → list A) (id : nat)
    (w : world) (o : option A) :
  gets (λ w, List.find (has_id id_of id) (coll w)) w = (inr o, w) →
  List.find (has_id id_of id) (coll w) = o.
Proof. unfold gets. by intros [= ->]. Qed.

(** C3, as amended. A PATCH of a stored student is answered 200 or 500; when
    it is answered 200 the saved student is stored under the identifier, and
    each of [name], [age], [class] and [fees.due] holds the submitted value
    if that has the guarded type and the previous value otherwise, the
    payments being as before. It is answered 200 whenever the stored student
    is valid and neither [name] nor [class] is submitted as the empty string;
    when it is answered 500 the students are as before. A PATCH of a stored
    teacher is answered 200, 400 or 500, and the same holds of [name],
    [subject], [role] and [email] when it is answered 200; otherwise the
    teachers are as before. The teacher's [classTeacherClass] is not part of
    this statement. *)
Theorem patch_is_type_guarded (id : nat) (body : json) (w : world) :
  (∀ s, Student_findById id w = (inr (Some s), w) →
     ∃ res w', patch_api_students_id id body w = (inr res, w')
       ∧ (status res = 200 ∨ status res = 500)
       ∧ (validate_student s = true → field "name" body ≠ JStr "" →
          field "class" body ≠ JStr "" → status res = 200)
       ∧ (status res = 200 →
          ∃ saved, sent res = json_student saved
            ∧ Student_findById id w' = (inr (Some saved), w')
            ∧ guarded_string (field "name" body) (s_name s) (s_name saved)
            ∧ guarded_number (field "age" body) (s_age s) (s_age saved)
            ∧ guarded_string (field "class" body) (s_class s) (s_class saved)
            ∧ guarded_number (field "feesDue" body) (s_fees_due s) (s_fees_due saved)
            ∧ s_id saved = s_id s ∧ s_fees_payments saved = s_fees_payments s)
       ∧ (status res = 500 → students w' = students w))
  ∧ (∀ t, Teacher_findById id w = (inr (Some t), w) →
     ∃ res w', patch_api_teachers_id id body w = (inr res, w')
       ∧ (status res = 200 ∨ status res = 400 ∨ status res = 500)
       ∧ (validate_teacher t = true → field "name" body ≠ JStr "" →
          field "subject" body ≠ JStr "" → field "role" body ≠ JStr "" →
          field "email" body ≠ JStr "" → field "role" body ≠ JStr CLASS_TEACHER →
          status res = 200)
       ∧ (status res = 200 →
          ∃ saved, sent res = json_teacher saved
            ∧ Teacher_findById id w' = (inr (Some saved), w')
            ∧ guarded_string (field "name" body) (t_name t) (t_name saved)
            ∧ guarded_string (field "subject" body) (t_subject t) (t_subject saved)
            ∧ guarded_string (field "role" body) (t_role t) (t_role saved)
            ∧ guarded_string (field "email" body) (t_email t) (t_email saved)
            ∧ t_id saved = t_id t)
       ∧ (status res ≠ 200 → teachers w' = teachers w)).
Proof.
  split.
  - intros s Hfind%find_by_id_run.
    rewrite (patch_student_found id body w s Hfind). cbn zeta.
    destruct (student_updates_guarded body s) as (Hn & Ha & Hc & Hd & Hid & Hp).
    set (s' := assign_number _ _ _) in *.
    destruct (find_has_id _ _ _ _ Hfind) as [Hids _].
    destruct (validate_student s') eqn:Hv.
    + eexists _, _. split; [reflexivity |]. cbn.
      repeat split; try (by left); try done.
      intros _. exists s'. repeat split; try done; try apply Hn; try apply Ha;
        try apply Hc; try apply Hd.
      unfold Student_findById, gets. cbn. f_equal. f_equal.
      rewrite <- Hids, <- Hid. apply (find_replace_same s_id s' s).
      by rewrite Hid, Hids.
    + unfold server_error_message. unfold_M.
      eexists _, _. split; [reflexivity |]. cbn.
      repeat split; try (by right); try done.
      intros Hs Hname Hclass. exfalso.
      unfold validate_student in Hv, Hs. apply andb_true_iff in Hs as [Hs1 Hs2].
      rewrite (guarded_string_nonempty _ _ _ Hn Hs1 Hname) in Hv.
      rewrite (guarded_string_nonempty _ _ _ Hc Hs2 Hclass) in Hv. discriminate.
  - intros t Hfind%find_by_id_run.
    rewrite (patch_teacher_found id body w t Hfind). cbn zeta.
    destruct (teacher_updates_guarded body t) as (Hn & Hs & Hr & He & Hid & Hc).
    set (t1 := assign_string _ _ _) in *.
    destruct (find_has_id _ _ _ _ Hfind) as [Hidt _].
    assert (Hsave : ∀ cls,
      let t2 := set_t_classTeacherClass cls t1 in
      ∃ res w',
        (if validate_teacher t2
         then (inr (Response 200 (json_teacher t2)),
               set_teachers (replace_doc t_id t2 (teachers w)) w)
         else server_error_message "PATCH /api/teachers/:id error:" ValidationError w)
        = (inr res, w')
        ∧ (status res = 200 ∨ status res = 400 ∨ status res = 500)
        ∧ (validate_teacher t2 = true → status res = 200)
        ∧ (status res = 200 →
           ∃ saved, sent res = json_teacher saved
             ∧ Teacher_findById id w' = (inr (Some saved), w')
             ∧ guarded_string (field "name" body) (t_name t) (t_name saved)
             ∧ guarded_string (field "subject" body) (t_subject t) (t_subject saved)
             ∧ guarded_string (field "role" body) (t_role t) (t_role saved)
             ∧ guarded_string (field "email" body) (t_email t) (t_email saved)
             ∧ t_id saved = t_id t)
        ∧ (status res ≠ 200 → teachers w' = teachers w)).
    { intros cls t2. destruct (validate_teacher t2) eqn:Hv.
      - eexists _, _. split; [reflexivity |]. cbn.
        repeat split; try (by left); try done.
        intros _. exists t2. repeat split; try done; try apply Hn; try apply Hs;
          try apply Hr; try apply He.
        unfold Teacher_findById, gets. cbn. f_equal. f_equal.
        assert (Hid2 : t_id t2 = id) by (cbn; congruence).
        rewrite <- Hid2. apply (find_replace_same t_id t2 t). by rewrite Hid2.
      - unfold server_error_message. unfold_M.
        eexists _, _. split; [reflexivity |]. cbn.
        repeat split; try (by right; right); try done. }
    assert (Hvalid : validate_teacher t = true → field "name" body ≠ JStr "" →
      field "subject" body ≠ JStr "" → field "role" body ≠ JStr "" →
      field "email" body ≠ JStr "" → ∀ cls,
      validate_teacher (set_t_classTeacherClass cls t1) = true).
    { intros Hv H1 H2 H3 H4 cls. unfold validate_teacher in *. cbn.
      apply andb_true_iff in Hv as [Hv Hv4]. apply andb_true_iff in Hv as [Hv Hv3].
      apply andb_true_iff in Hv as [Hv1 Hv2].
      rewrite (guarded_string_nonempty _ _ _ Hn Hv1 H1),
        (guarded_string_nonempty _ _ _ Hs Hv2 H2),
        (guarded_string_nonempty _ _ _ Hr Hv3 H3),
        (guarded_string_nonempty _ _ _ He Hv4 H4). reflexivity. }
    destruct (strict_eq (field "role" body) (JStr CLASS_TEACHER)) eqn:Hrole.
    + apply bool_decide_eq_true in Hrole.
      destruct (truthy (field "classTeacherClass" body)).
      * destruct (castString (field "classTeacherClass" body)) as [cls |].
        -- destruct (List.find (matches CLASS_TEACHER cls (Some id)) (teachers w))
             as [existing |].
           ++ eexists _, _. split; [reflexivity |]. cbn.
              repeat split; try (by right; left); try done.
           ++ destruct (Hsave cls) as (res & w' & -> & H1 & H2 & H3 & H4).
              exists res, w'. split; [done |]. split; [done |].
              split; [intros _ _ _ _ _ Hne; by destruct Hne |]. by split.
        -- unfold server_error_message. unfold_M.
           eexists _, _. split; [reflexivity |]. cbn.
           repeat split; try (by right; right); try done.
      * destruct (Hsave "") as (res & w' & -> & H1 & H2 & H3 & H4).
        exists res, w'. split; [done |]. split; [done |].
        split; [intros _ _ _ _ _ Hne; by destruct Hne |]. by split.
    + destruct (Hsave "") as (res & w' & -> & H1 & H2 & H3 & H4).
      exists res, w'. split; [done |]. split; [done |].
      split; [| by split]. intros Hv N1 N2 N3 N4 _. apply H2. by apply Hvalid.
Qed.

(** *** The class-teacher rule *)

(** The creation route with the monad run. *)
Lemma post_teachers_run (body : json) (w : world) :
  let name := field "name" body in
  let subject := field "subject" body in
  let role := field "role" body in
  let classTeacherClass := field "classTeacherClass" body in
  let email := field "email" body in
  let failed := server_error "POST /api/teachers error:" in
  let w1 := set_next_id (S (next_id w)) w in
  let create :=
    match castString name, castString subject, castString role, castString email,
          castString (if strict_eq role (JStr CLASS_TEACHER)
                      then js_or classTeacherClass (JStr "") else JStr "") with
    | Some n, Some s, Some r, Some e, Some c =>
        let t := Teacher (next_id w) n s r c e in
        if validate_teacher t
        then (inr (Response 201 (json_teacher t)), set_teachers (teachers w ++ [t]) w1)
        else failed ValidationError w1
    | _, _, _, _, _ => failed CastError w1
    end in
  post_api_teachers body w
  = if negb (truthy name) || negb (truthy subject) || negb (truthy role) || negb (truthy email)
    then (inr (Response 400 (json_error "name, subject, role, email are required")), w)
    else if strict_eq role (JStr CLASS_TEACHER) && truthy classTeacherClass then
      match castString classTeacherClass with
      | None => failed CastError w
      | Some cls =>
          match List.find (matches CLASS_TEACHER cls None) (teachers w) with
          | Some existing =>
              (inr (Response 400 (json_error (conflict_message classTeacherClass existing))), w)
          | None => create
          end
      end
    else create.
Proof.
  cbn zeta. unfold post_api_teachers, Teacher_findOne, new_Teacher, Teacher_save_new,
    server_error, js_or.
  unfold_M. cbn [q_classTeacherClass q_role q_id_ne teachers].
  destruct (negb (truthy (field "name" body)) || negb (truthy (field "subject" body))
            || negb (truthy (field "role" body)) || negb (truthy (field "email" body)));
    [reflexivity |].
  destruct (strict_eq (field "role" body) (JStr CLASS_TEACHER)); cbn [andb];
    [destruct (truthy (field "classTeacherClass" body));
       [destruct (castString (field "classTeacherClass" body)) as [cls |];
          [destruct (List.find (matches CLASS_TEACHER cls None) (teachers w)) |] |] |];
    try reflexivity.
  all: destruct (castString (field "name" body)), (castString (field "subject" body)),
         (castString (field "role" body)), (castString (field "email" body));
    try reflexivity.
  2, 3: destruct (castString (JStr "")); try reflexivity.
  all: cbn zeta; destruct (validate_teacher _); reflexivity.
Qed.

Lemma matches_spec (role cls : string) (id_ne : option nat) (t : teacher) :
  matches role cls id_ne t = true
  ↔ t_role t = role ∧ t_classTeacherClass t = cls ∧ (∀ i, id_ne = Some i → t_id t ≠ i).
Proof.
  unfold matches, has_id. rewrite !andb_true_iff, !bool_decide_eq_true.
  destruct id_ne as [i |].
  - rewrite negb_true_iff, bool_decide_eq_false. split.
    + intros [[? ?] ?]. repeat split; try done. by intros ? [= <-].
    + intros (? & ? & Hi). repeat split; try done. by apply Hi.
  - split; [intros [[? ?] _] | intros (? & ? & _)]; done.
Qed.

Lemma find_matches_Some (cls : string) (id_ne : option nat) (l : list teacher) (t : teacher) :
  List.find (matches CLASS_TEACHER cls id_ne) l = Some t →
  t ∈ l ∧ class_teacher_of cls t ∧ (∀ i, id_ne = Some i → t_id t ≠ i).
Proof.
  intros [Hin Hm]%List.find_some. apply matches_spec in Hm as (? & ? & ?).
  split; [by apply list_elem_of_In |]. by repeat split.
Qed.

Lemma find_matches_None (cls : string) (id_ne : option nat) (l : list teacher) :
  List.find (matches CLASS_TEACHER cls id_ne) l = None
  ↔ ∀ t, t ∈ l → class_teacher_of cls t → id_ne = Some (t_id t).
Proof.
  split.
  - intros Hf t Hin [Hr Hc]. apply list_elem_of_In in Hin.
    pose proof (List.find_none _ _ Hf _ Hin) as Hm.
    destruct id_ne as [i |].
    + destruct (decide (t_id t = i)) as [-> | Hne]; [done |].
      assert (matches CLASS_TEACHER cls (Some i) t = true) as Ht; [| congruence].
      apply matches_spec. repeat split; try done. by intros ? [= <-].
    + assert (matches CLASS_TEACHER cls None t = true) as Ht; [| congruence].
      apply matches_spec. by repeat split.
  - intros Hall. destruct (List.find _ l) as [t |] eqn:Hf; [| done].
    apply find_matches_Some in Hf as (Hin & Hct & Hid).
    specialize (Hall t Hin Hct). by destruct (Hid _ Hall).
Qed.



Lemma teacher_updates_valid (body : json) (t : teacher) (cls : string) :
  validate_teacher t = true →
  field "name" body ≠ JStr "" → field "subject" body ≠ JStr "" →
  field "role" body ≠ JStr "" → field "email" body ≠ JStr "" →
  validate_teacher
    (set_t_classTeacherClass cls
       (assign_string set_t_email (field "email" body)
          (assign_string set_t_role (field "role" body)
             (assign_string set_t_subject (field "subject" body)
                (assign_string set_t_name (field "name" body) t))))) = true.
Proof.
  intros Hv H1 H2 H3 H4.
  destruct (teacher_updates_guarded body t) as (Hn & Hs & Hr & He & _).
  unfold validate_teacher in *. cbn [t_name t_subject t_role t_email set_t_classTeacherClass].
  apply andb_true_iff in Hv as [Hv Hv4]. apply andb_true_iff in Hv as [Hv Hv3].
  apply andb_true_iff in Hv as [Hv1 Hv2].
  rewrite (guarded_string_nonempty _ _ _ Hn Hv1 H1),
    (guarded_string_nonempty _ _ _ Hs Hv2 H2),
    (guarded_string_nonempty _ _ _ Hr Hv3 H3),
    (guarded_string_nonempty _ _ _ He Hv4 H4). reflexivity.
Qed.

(** A PATCH whose submitted [role] is not the string Class Teacher takes
    the branch that clears the class. *)
Lemma patch_teacher_clears (id : nat) (body : json) (w : world) (t : teacher) :
  List.find (has_id t_id id) (teachers w) = Some t →
  field "role" body ≠ JStr CLASS_TEACHER →
  ∃ res w', patch_api_teachers_id id body w = (inr res, w')
    ∧ (status res = 200 ∨ status res = 500)
    ∧ (validate_teacher t = true →
       field "name" body ≠ JStr "" → field "subject" body ≠ JStr "" →
       field "role" body ≠ JStr "" → field "email" body ≠ JStr "" →
       status res = 200)
    ∧ (status res = 200 →
       ∃ saved, sent res = json_teacher saved
         ∧ Teacher_findById id w' = (inr (Some saved), w')
         ∧ t_classTeacherClass saved = ""
         ∧ guarded_string (field "role" body) (t_role t) (t_role saved))
    ∧ (status res ≠ 200 → teachers w' = teachers w).
Proof.
  intros Hfind Hrole.
  rewrite (patch_teacher_found id body w t Hfind). cbn zeta.
  unfold strict_eq. rewrite bool_decide_eq_false_2 by done.
  destruct (teacher_updates_guarded body t) as (_ & _ & Hr & _ & Hid & _).
  pose proof (teacher_updates_valid body t "") as Hvalid.
  set (t1 := assign_string _ _ _) in *.
  destruct (find_has_id _ _ _ _ Hfind) as [Hidt _].
  destruct (validate_teacher (set_t_classTeacherClass "" t1)) eqn:Hv.
  - eexists _, _. split; [reflexivity |]. cbn.
    split; [by left |]. split; [done |]. split; [| done].
    intros _. eexists. split; [reflexivity |]. split; [| by split].
    unfold Teacher_findById, gets. cbn. f_equal. f_equal.
    assert (Hid2 : t_id (set_t_classTeacherClass "" t1) = id) by (cbn; congruence).
    rewrite <- Hid2. apply (find_replace_same t_id _ t). by rewrite Hid2.
  - unfold server_error_message. unfold_M.
    eexists _, _. split; [reflexivity |]. cbn.
    split; [by right |]. split; [| by split].
    intros Hvt N1 N2 N3 N4. by specialize (Hvalid Hvt N1 N2 N3 N4).
Qed.

(** C4. A PATCH of a stored teacher whose body has no string [role] is
    answered 200 or 500. When it is answered 200 the saved teacher, stored
    under the identifier, has the role it had and an empty
    [classTeacherClass], also when that role is Class Teacher: the branch
    is chosen by the submitted role. It is answered 200 whenever the stored
    teacher is valid and none of [name], [subject] and [email] is submitted
    as the empty string. *)
Theorem patch_without_role_clears_class (id : nat) (body : json) (w : world) (t : teacher) :
  Teacher_findById id w = (inr (Some t), w) →
  typeof (field "role" body) ≠ "string" →
  ∃ res w', patch_api_teachers_id id body w = (inr res, w')
    ∧ (status res = 200 ∨ status res = 500)
    ∧ (validate_teacher t = true →
       field "name" body ≠ JStr "" → field "subject" body ≠ JStr "" →
       field "email" body ≠ JStr "" → status res = 200)
    ∧ (status res = 200 →
       ∃ saved, sent res = json_teacher saved
         ∧ Teacher_findById id w' = (inr (Some saved), w')
         ∧ t_role saved = t_role t
         ∧ t_classTeacherClass saved = "").
Proof.
  intros Hfind%find_by_id_run Hty.
  assert (Hne : ∀ s, field "role" body ≠ JStr s).
  { intros s Heq. apply Hty. rewrite Heq. reflexivity. }
  destruct (patch_teacher_clears id body w t Hfind (Hne _))
    as (res & w' & Hrun & Hst & Hok & Hsaved & _).
  exists res, w'. split; [done |]. split; [done |]. split.
  - intros Hv H1 H2 H3. by apply Hok.
  - intros H200. destruct (Hsaved H200) as (saved & Hsent & Hstored & Hcls & [_ Hrole]).
    exists saved. repeat split; try done. by apply Hrole.
Qed.

(** C5. Let the submitted [role] be anything but the string Class Teacher.
    A creation is answered 201, 400 or 500, and when it is answered 201 the
    teacher added to the stored ones has an empty [classTeacherClass]; it is
    answered 201 whenever [name], [subject], [role] and [email] are
    non-empty strings. An update of a stored teacher is answered 200 or 500,
    and when it is answered 200 the teacher stored under the identifier has
    an empty [classTeacherClass]; it is answered 200 whenever the stored
    teacher is valid and no field is submitted as the empty string. What the
    request gives as [classTeacherClass] plays no part. *)
Theorem other_roles_have_no_class (id : nat) (body : json) (w : world) :
  field "role" body ≠ JStr CLASS_TEACHER →
  (∃ res w', post_api_teachers body w = (inr res, w')
     ∧ (status res = 201 ∨ status res = 400 ∨ status res = 500)
     ∧ (∀ name subject role email,
          field "name" body = JStr name → name ≠ "" →
          field "subject" body = JStr subject → subject ≠ "" →
          field "role" body = JStr role → role ≠ "" →
          field "email" body = JStr email → email ≠ "" → status res = 201)
     ∧ (status res = 201 →
        ∃ saved, sent res = json_teacher saved
          ∧ teachers w' = (teachers w ++ [saved])%list
          ∧ t_classTeacherClass saved = "")
     ∧ (status res ≠ 201 → teachers w' = teachers w))
  ∧ (∀ t, Teacher_findById id w = (inr (Some t), w) →
     ∃ res w', patch_api_teachers_id id body w = (inr res, w')
       ∧ (status res = 200 ∨ status res = 500)
       ∧ (validate_teacher t = true →
          field "name" body ≠ JStr "" → field "subject" body ≠ JStr "" →
          field "role" body ≠ JStr "" → field "email" body ≠ JStr "" →
          status res = 200)
       ∧ (status res = 200 →
          ∃ saved, sent res = json_teacher saved
            ∧ Teacher_findById id w' = (inr (Some saved), w')
            ∧ t_classTeacherClass saved = "")
       ∧ (status res ≠ 200 → teachers w' = teachers w)).
Proof.
  intros Hrole. split.
  - rewrite post_teachers_run. cbn zeta.
    unfold strict_eq. rewrite (bool_decide_eq_false_2 _ Hrole). cbn [andb].
    rewrite castString_str.
    destruct (negb (truthy (field "name" body)) || negb (truthy (field "subject" body))
              || negb (truthy (field "role" body)) || negb (truthy (field "email" body)))
      eqn:Hmissing.
    { eexists _, _. split; [reflexivity |]. cbn.
      split; [by right; left |]. split; [| by split].
      intros n s r e Hn Hn' Hs Hs' Hr Hr' He He'. exfalso.
      rewrite Hn, Hs, Hr, He in Hmissing.
      rewrite (proj2 (truthy_str n)), (proj2 (truthy_str s)), (proj2 (truthy_str r)),
        (proj2 (truthy_str e)) in Hmissing; done. }
    destruct (castString (field "name" body)) as [n |] eqn:Hn,
      (castString (field "subject" body)) as [s |] eqn:Hs,
      (castString (field "role" body)) as [r |] eqn:Hr,
      (castString (field "email" body)) as [e |] eqn:He.
    all: try (unfold server_error; unfold_M;
              eexists _, _; (split; [reflexivity |]); cbn;
              (split; [by right; right |]); (split; [| by split]);
              intros n' s' r' e' Hn' ? Hs' ? Hr' ? He' ?;
              rewrite ?Hn', ?Hs', ?Hr', ?He', castString_str in *; discriminate).
    cbn zeta. destruct (validate_teacher _) eqn:Hv.
    + eexists _, _. split; [reflexivity |]. cbn.
      split; [by left |]. split; [done |]. split; [| done].
      intros _. eexists. by repeat split.
    + unfold server_error. unfold_M.
      eexists _, _. split; [reflexivity |]. cbn.
      split; [by right; right |]. split; [| by split].
      intros n' s' r' e' Hn' Hn'' Hs' Hs'' Hr' Hr'' He' He''. exfalso.
      rewrite Hn', Hs', Hr', He', castString_str in *.
      injection Hn as <-. injection Hs as <-. injection Hr as <-. injection He as <-.
      unfold validate_teacher in Hv. cbn in Hv.
      rewrite !(proj2 (nonempty_true _)) in Hv; done.
  - intros t Hfind%find_by_id_run.
    destruct (patch_teacher_clears id body w t Hfind Hrole)
      as (res & w' & Hrun & Hst & Hok & Hsaved & Hkept).
    exists res, w'. split; [done |]. split; [done |]. split; [done |]. split; [| done].
    intros H200. destruct (Hsaved H200) as (saved & Hsent & Hstored & Hcls & _).
    by exists saved.
Qed.

(** C6. Let a stored teacher be the class teacher of a class, in a store
    with at most one class teacher per class. A PATCH of that teacher
    that submits the role Class Teacher and the same class is answered 200
    or 500, never with a conflict: the teacher is left out of the query.
    When it is answered 200 the teacher stored under the identifier is
    still the class teacher of the class, and it is answered 200 whenever
    the stored teacher is valid and none of [name], [subject] and [email]
    is submitted as the empty string. *)
Theorem self_reassignment_succeeds (id : nat) (body : json) (w : world)
    (t : teacher) (cls : string) :
  Teacher_findById id w = (inr (Some t), w) →
  exclusive (teachers w) →
  class_teacher_of cls t → cls ≠ "" →
  field "role" body = JStr CLASS_TEACHER →
  field "classTeacherClass" body = JStr cls →
  Teacher_findOne (TeacherQuery CLASS_TEACHER (JStr cls) (Some id)) w = (inr None, w)
  ∧ ∃ res w', patch_api_teachers_id id body w = (inr res, w')
      ∧ (status res = 200 ∨ status res = 500)
      ∧ (validate_teacher t = true →
         field "name" body ≠ JStr "" → field "subject" body ≠ JStr "" →
         field "email" body ≠ JStr "" → status res = 200)
      ∧ (status res = 200 →
         ∃ saved, sent res = json_teacher saved
           ∧ Teacher_findById id w' = (inr (Some saved), w')
           ∧ class_teacher_of cls saved)
      ∧ (status res ≠ 200 → teachers w' = teachers w).
Proof.
  intros Hfind%find_by_id_run Hex Hct Hcls Hrole Hclass.
  destruct (find_has_id _ _ _ _ Hfind) as [Hidt Hin].
  assert (Hquery : List.find (matches CLASS_TEACHER cls (Some id)) (teachers w) = None).
  { apply find_matches_None. intros t' Hin' Hct'. f_equal.
    rewrite <- Hidt. by apply (Hex t t' cls). }
  split.
  { unfold Teacher_findOne. unfold_M. cbn. by rewrite castString_str, Hquery. }
  rewrite (patch_teacher_found id body w t Hfind). cbn zeta.
  rewrite Hrole, Hclass, castString_str, Hquery.
  unfold strict_eq. rewrite bool_decide_eq_true_2 by done.
  rewrite (proj2 (truthy_str cls) Hcls).
  rewrite <- Hrole.
  destruct (teacher_updates_guarded body t) as (_ & _ & Hr & _ & Hid & _).
  pose proof (teacher_updates_valid body t cls) as Hvalid.
  set (t1 := assign_string _ _ _) in *.
  assert (Hrole1 : t_role t1 = CLASS_TEACHER).
  { destruct Hr as [Hr _]. rewrite Hrole in Hr. specialize (Hr eq_refl). congruence. }
  destruct (validate_teacher (set_t_classTeacherClass cls t1)) eqn:Hv.
  - eexists _, _. split; [reflexivity |]. cbn.
    split; [by left |]. split; [done |]. split; [| done].
    intros _. eexists. split; [reflexivity |]. split; [| by split].
    unfold Teacher_findById, gets. cbn. f_equal. f_equal.
    assert (Hid2 : t_id (set_t_classTeacherClass cls t1) = id) by (cbn; congruence).
    rewrite <- Hid2. apply (find_replace_same t_id _ t). by rewrite Hid2.
  - unfold server_error_message. unfold_M.
    eexists _, _. split; [reflexivity |]. cbn.
    split; [by right |]. split; [| by split].
    intros Hvt N1 N2 N3. exfalso.
    assert (false = true); [apply Hvalid; try done; rewrite Hrole; discriminate | done].
Qed.

(** *** The mail to the teachers *)

Lemma send_each_ok (text : string) (ts : list teacher) (w : world) :
  Forall (λ t, transport (announcement_mail t text) = None) ts →
  send_each text ts w
  = (inr tt, set_console (console w ++ map sent_line ts)
               (set_outbox (outbox w ++ map (λ t, announcement_mail t text) ts) w)).
Proof.
  intros Hok. revert w. induction Hok as [| t ts Ht _ IH]; intros w.
  - cbn. unfold_M. destruct w; unfold set_console, set_outbox; cbn.
    by rewrite !app_nil_r.
  - cbn [send_each]. unfold sgMail_send. unfold_M. rewrite Ht. rewrite IH.
    f_equal. unfold set_console, set_outbox, sent_line. cbn.
    by rewrite <- !app_assoc.
Qed.

Lemma send_each_fail (text : string) (sent : list teacher) (t : teacher)
    (rest : list teacher) (err : exn) (w : world) :
  Forall (λ t, transport (announcement_mail t text) = None) sent →
  transport (announcement_mail t text) = Some err →
  send_each text (sent ++ t :: rest) w
  = (inl err, set_console (console w ++ map sent_line sent)
                (set_outbox (outbox w ++ map (λ t, announcement_mail t text) sent
                             ++ [announcement_mail t text]) w)).
Proof.
  intros Hok Ht. revert w. induction Hok as [| t0 ts Ht0 _ IH]; intros w.
  - cbn. unfold sgMail_send. unfold_M. rewrite Ht.
    f_equal. destruct w; unfold set_console, set_outbox; cbn. by rewrite !app_nil_r.
  - cbn [send_each app]. unfold sgMail_send. unfold_M. rewrite Ht0. rewrite IH.
    f_equal. unfold set_console, set_outbox, sent_line. cbn.
    by rewrite <- !app_assoc.
Qed.

Lemma send_each_same_store (text : string) (ts : list teacher) (w w' : world)
    (r : exn + unit) :
  send_each text ts w = (r, w') → same_store w w'.
Proof.
  revert w. induction ts as [| t ts IH]; intros w.
  - cbn. unfold_M. by intros [= _ <-].
  - cbn [send_each]. unfold sgMail_send. unfold_M.
    destruct (transport _); [by intros [= _ <-] |].
    intros Hrest. by apply IH in Hrest.
Qed.

Lemma dispatch_returns (text : string) (w : world) :
  ∃ w', sendAnnouncementEmailToTeachers text w = (inr tt, w') ∧ same_store w w'.
Proof.
  unfold sendAnnouncementEmailToTeachers, Teacher_find_with_email.
  unfold try_catch, log, modify, gets. unfold mbind at 1 2, M_bind.
  cbn [teachers set_console].
  destruct (Nat.eqb _ 0); [by eexists |].
  destruct (send_each _ _ _) as [[err | []] w'] eqn:Hsend;
    apply send_each_same_store in Hsend; by eexists.
Qed.

Lemma dispatch_all_sent (text : string) (w : world) :
  let recipients := List.filter (λ t, nonempty (t_email t)) (teachers w) in
  Forall (λ t, transport (announcement_mail t text) = None) recipients →
  sendAnnouncementEmailToTeachers text w
  = (inr tt,
     set_console
       (console w ++ console_log "📧 SendGrid: Sending announcement to teachers..."
        :: (if Nat.eqb (length recipients) 0
            then [console_log "No teachers with email to notify"]
            else map sent_line recipients))
       (set_outbox (outbox w ++ map (λ t, announcement_mail t text) recipients) w)).
Proof.
  intros recipients Hok.
  unfold sendAnnouncementEmailToTeachers, Teacher_find_with_email.
  unfold try_catch, log, modify, gets. unfold mbind at 1 2, M_bind.
  cbn [teachers set_console]. fold recipients.
  destruct (Nat.eqb (length recipients) 0) eqn:Hlen.
  - destruct recipients; [| done].
    destruct w; unfold set_console, set_outbox; cbn. by rewrite !app_nil_r, <- app_assoc.
  - rewrite send_each_ok by done.
    destruct w; unfold set_console, set_outbox; cbn. by rewrite <- !app_assoc.
Qed.

Lemma dispatch_first_failure (text : string) (w : world)
    (sent : list teacher) (t : teacher) (rest : list teacher) (err : exn) :
  List.filter (λ t, nonempty (t_email t)) (teachers w) = (sent ++ t :: rest)%list →
  Forall (λ t, transport (announcement_mail t text) = None) sent →
  transport (announcement_mail t text) = Some err →
  sendAnnouncementEmailToTeachers text w
  = (inr tt,
     set_console
       (console w ++ console_log "📧 SendGrid: Sending announcement to teachers..."
        :: map sent_line sent ++ [console_error "SendGrid error:" (sendgrid_detail err)])
       (set_outbox (outbox w ++ map (λ t, announcement_mail t text) sent
                    ++ [announcement_mail t text]) w)).
Proof.
  intros Hsplit Hok Hfail.
  unfold sendAnnouncementEmailToTeachers, Teacher_find_with_email.
  unfold try_catch, log, modify, gets. unfold mbind at 1 2, M_bind.
  cbn [teachers set_console]. rewrite Hsplit.
  destruct (Nat.eqb _ 0) eqn:Hlen; [by destruct sent |].
  rewrite (send_each_fail text sent t rest err) by done.
  destruct w; unfold set_console, set_outbox; cbn. by rewrite <- !app_assoc.
Qed.

(** C2, as amended. The dispatch never throws and leaves the collections
    as they are. Its mails are one per stored teacher with a non-empty
    [email], in stored order, each addressed to that teacher alone with the
    fixed subject and the announcement text. If no send fails, all of them
    are handed to the transport and no error is logged. If a send fails,
    the mails before it and the failing one are handed to the transport, one
    error line is logged, and the mails after it are not attempted. A
    creation whose [text] is a non-empty string is answered 201 with the
    stored announcement whatever the transport does, the dispatch running on
    the world the save leaves. *)
Theorem dispatch_stops_at_first_failure (text : string) (w : world) :
  let recipients := List.filter (λ t, nonempty (t_email t)) (teachers w) in
  let mail := λ t, announcement_mail t text in
  let started := console_log "📧 SendGrid: Sending announcement to teachers..." in
  (∀ t, m_to (mail t) = t_email t ∧ m_subject (mail t) = " New School Announcement"
        ∧ m_text (mail t) = text)
  ∧ (∃ w', sendAnnouncementEmailToTeachers text w = (inr tt, w')
       ∧ same_store w w'
       ∧ (Forall (λ t, transport (mail t) = None) recipients →
          outbox w' = (outbox w ++ map mail recipients)%list
          ∧ console w'
            = (console w ++ started
               :: (if Nat.eqb (length recipients) 0
                   then [console_log "No teachers with email to notify"]
                   else map sent_line recipients))%list)
       ∧ (∀ sent t rest err,
            recipients = (sent ++ t :: rest)%list →
            Forall (λ t, transport (mail t) = None) sent →
            transport (mail t) = Some err →
            outbox w' = (outbox w ++ map mail sent ++ [mail t])%list
            ∧ console w'
              = (console w ++ started :: map sent_line sent
                 ++ [console_error "SendGrid error:" (sendgrid_detail err)])%list))
  ∧ (∀ body x, field "text" body = JStr x → x ≠ "" →
       ∃ saved w1 w',
         post_api_announcements body w = (inr (Response 201 (json_announcement saved)), w')
         ∧ a_text saved = x
         ∧ announcements w1 = (announcements w ++ [saved])%list
         ∧ teachers w1 = teachers w ∧ outbox w1 = outbox w
         ∧ sendAnnouncementEmailToTeachers x w1 = (inr tt, w')).
Proof.
  cbn zeta. split; [done |]. split.
  - destruct (dispatch_returns text w) as (w' & Hrun & Hsame).
    exists w'. split; [done |]. split; [done |]. split.
    + intros Hok. rewrite (dispatch_all_sent text w Hok) in Hrun.
      injection Hrun as <-. by split.
    + intros sent t rest err Hsplit Hok Hfail.
      rewrite (dispatch_first_failure text w sent t rest err Hsplit Hok Hfail) in Hrun.
      injection Hrun as <-. by split.
  - intros body x Hx Hne.
    unfold post_api_announcements, new_Announcement, Announcement_save_new.
    unfold_M. rewrite Hx, castString_str.
    pose proof Hne as ->%truthy_str. cbn [negb].
    unfold validate_announcement. cbn [a_text].
    rewrite (proj2 (nonempty_true x) Hne).
    cbn [a_text].
    match goal with
    | |- context [sendAnnouncementEmailToTeachers x ?w1] =>
        destruct (dispatch_returns x w1) as (w' & Hrun & _);
        rewrite Hrun; eexists _, w1, w'
    end.
    split; [reflexivity |]. by repeat split.
Qed.

End Claims.

(** * The invariant of the store *)

Section Invariant.
Context {env : Environment}.

Lemma Forall_replace_doc {A} (P : A → Prop) (id_of : A → nat) (d : A) (l : list A) :
  P d → Forall P l → Forall P (replace_doc id_of d l).
Proof.
  intros Hd Hl. unfold replace_doc. apply Forall_fmap.
  eapply Forall_impl; [exact Hl |]. intros x Hx. cbn. by destruct (has_id _ _ _).
Qed.

Lemma Forall_list_filter {A} (P : A → Prop) (f : A → bool) (l : list A) :
  Forall P l → Forall P (List.filter f l).
Proof.
  induction 1 as [| x l Hx _ IH]; cbn; [done |]. destruct (f x); [by constructor | done].
Qed.

Lemma exclusive_filter (f : teacher → bool) (l : list teacher) :
  exclusive l → exclusive (List.filter f l).
Proof.
  intros Hex t1 t2 cls H1 H2. apply (Hex t1 t2 cls).
  - apply list_elem_of_In in H1. apply List.filter_In in H1 as [H1 _].
    by apply list_elem_of_In.
  - apply list_elem_of_In in H2. apply List.filter_In in H2 as [H2 _].
    by apply list_elem_of_In.
Qed.

(** A teacher may join when nobody holds the class it would hold. *)
Lemma exclusive_app (t : teacher) (l : list teacher) :
  exclusive l →
  (t_role t = CLASS_TEACHER → t_classTeacherClass t ≠ "" →
   ∀ t', t' ∈ l → ¬ class_teacher_of (t_classTeacherClass t) t') →
  exclusive (l ++ [t]).
Proof.
  intros Hex Hfree t1 t2 cls H1 H2 Hcls [Hr1 Hc1] [Hr2 Hc2].
  apply elem_of_app in H1 as [H1 | H1], H2 as [H2 | H2].
  - by apply (Hex t1 t2 cls).
  - apply list_elem_of_singleton in H2 as ->.
    destruct (Hfree Hr2 ltac:(congruence) t1 H1). split; congruence.
  - apply list_elem_of_singleton in H1 as ->.
    destruct (Hfree Hr1 ltac:(congruence) t2 H2). split; congruence.
  - apply list_elem_of_singleton in H1 as ->. by apply list_elem_of_singleton in H2 as ->.
Qed.

(** A teacher may be written back when nobody else holds the class it
    would hold. *)
Lemma exclusive_replace (t : teacher) (l : list teacher) :
  exclusive l →
  (t_role t = CLASS_TEACHER → t_classTeacherClass t ≠ "" →
   ∀ t', t' ∈ l → class_teacher_of (t_classTeacherClass t) t' → t_id t' = t_id t) →
  exclusive (replace_doc t_id t l).
Proof.
  intros Hex Hfree t1 t2 cls H1 H2 Hcls [Hr1 Hc1] [Hr2 Hc2].
  apply elem_of_replace_doc in H1 as [-> | [H1 Hid1]],
    H2 as [-> | [H2 Hid2]]; try done.
  - symmetry. apply (Hfree Hr1 ltac:(congruence) t2 H2). split; congruence.
  - apply (Hfree Hr2 ltac:(congruence) t1 H1). split; congruence.
  - by apply (Hex t1 t2 cls).
Qed.

Ltac run_route H :=
  unfold post_api_students, patch_api_students_id, post_api_students_id_payments,
    delete_api_students_id, delete_api_teachers_id, post_api_classes_init,
    post_api_announcements, new_Student, new_Payment, new_Announcement,
    Student_save, Student_save_new, Student_findById, Student_findByIdAndDelete,
    Teacher_findByIdAndDelete, ClassModel_countDocuments, ClassModel_insertMany,
    Announcement_save_new in H;
  unfold_M; repeat case_match; simplify_eq.

Lemma consistent_same (w w' : world) :
  students w' = students w → teachers w' = teachers w → consistent w → consistent w'.
Proof. unfold consistent. by intros -> ->. Qed.

Lemma new_Classes_same_store (docs : list json) (w w' : world) (r : exn + list class) :
  new_Classes docs w = (r, w') → students w' = students w ∧ teachers w' = teachers w.
Proof.
  revert w w' r. induction docs as [| doc docs IH]; intros w w' r.
  - cbn. unfold_M. by intros [= _ <-].
  - cbn [new_Classes]. unfold new_Class. unfold_M.
    destruct (castString _); [| by intros [= _ <-]].
    destruct (new_Classes docs _) as [[e | cs] w1] eqn:Hrest;
      apply IH in Hrest; by intros [= _ <-].
Qed.

Lemma patch_teacher_missing (id : nat) (body : json) (w : world) :
  List.find (has_id t_id id) (teachers w) = None →
  patch_api_teachers_id id body w
  = (inr (Response 404 (json_error "Teacher not found")), w).
Proof.
  intros Hfind. unfold patch_api_teachers_id, Teacher_findById. unfold_M.
  by rewrite Hfind.
Qed.

Lemma serve_consistent (r : request) (w : world) :
  consistent w → consistent (snd (serve r w)).
Proof.
  intros Hw. pose proof Hw as (Hs & Ht & Hex).
  destruct (serve r w) as [res w'] eqn:Hrun. cbn [snd].
  destruct r as [body | id body | id body | id | body | id body | id | | body];
    cbn [serve] in Hrun.
  - (* POST /api/students *)
    run_route Hrun; try done.
    repeat split; cbn [students teachers set_students set_next_id set_console]; try done. apply Forall_app. split; [done |]. by constructor.
  - (* PATCH /api/students/:id *)
    run_route Hrun; try done.
    repeat split; cbn [students teachers set_students set_next_id set_console]; try done. apply Forall_replace_doc; done.
  - (* POST /api/students/:id/payments *)
    run_route Hrun; try done.
    repeat split; cbn [students teachers set_students set_next_id set_console]; try done. apply Forall_replace_doc; done.
  - (* DELETE /api/students/:id *)
    run_route Hrun; try done.
    repeat split; cbn [students teachers set_students set_next_id set_console]; try done.
    by apply Forall_list_filter.
  - (* POST /api/teachers *)
    rewrite post_teachers_run in Hrun. cbn zeta in Hrun.
    assert (Hcreate : ∀ o : option string,
      (∀ cls, o = Some cls → cls ≠ "" →
         List.find (matches CLASS_TEACHER cls None) (teachers w) = None) →
      match castString (field "name" body), castString (field "subject" body),
            castString (field "role" body), castString (field "email" body), o with
      | Some n, Some s, Some r, Some e, Some c =>
          let t := Teacher (next_id w) n s r c e in
          if validate_teacher t
          then (inr (Response 201 (json_teacher t)),
                set_teachers (teachers w ++ [t]) (set_next_id (S (next_id w)) w))
          else server_error "POST /api/teachers error:" ValidationError
                 (set_next_id (S (next_id w)) w)
      | _, _, _, _, _ =>
          server_error "POST /api/teachers error:" CastError (set_next_id (S (next_id w)) w)
      end = (res, w') → consistent w').
    { clear Hrun. intros o Hfree Hc. unfold server_error in Hc. unfold_M.
      repeat case_match; simplify_eq; try done.
      repeat split; cbn [students teachers set_teachers set_next_id]; try done.
      - apply Forall_app. split; [done |]. by constructor.
      - apply exclusive_app; [done |]. cbn [t_role t_classTeacherClass].
        intros _ Hcls t' Hin' Hct'.
        pose proof (proj1 (find_matches_None _ _ _) (Hfree _ eq_refl Hcls) t' Hin' Hct').
        discriminate. }
    destruct (negb _ || _ || _ || _); [by simplify_eq |].
    unfold js_or in Hrun.
    destruct (strict_eq (field "role" body) (JStr CLASS_TEACHER)); cbn [andb] in Hrun;
      [destruct (truthy (field "classTeacherClass" body)) |].
    + destruct (castString (field "classTeacherClass" body)) as [cls |].
      * destruct (List.find (matches CLASS_TEACHER cls None) (teachers w)) eqn:Hq;
          [by simplify_eq |].
        apply (Hcreate (Some cls)); [| done]. intros cls' Hcls' _. by simplify_eq.
      * unfold server_error in Hrun. unfold_M. by simplify_eq.
    + rewrite castString_str in Hrun.
      apply (Hcreate (Some "")); [| done]. intros cls' Hcls' Hne. by simplify_eq.
    + rewrite castString_str in Hrun.
      apply (Hcreate (Some "")); [| done]. intros cls' Hcls' Hne. by simplify_eq.
  - (* PATCH /api/teachers/:id *)
    destruct (List.find (has_id t_id id) (teachers w)) as [t |] eqn:Hfind.
    2: { rewrite patch_teacher_missing in Hrun by done. by simplify_eq. }
    rewrite (patch_teacher_found id body w t Hfind) in Hrun. cbn zeta in Hrun.
    set (t1 := assign_string _ _ _) in *.
    assert (Hid1 : t_id t1 = id).
    { subst t1. rewrite !assign_string_keeps by done.
      by destruct (find_has_id _ _ _ _ Hfind). }
    assert (Hsave : ∀ cls,
      (cls ≠ "" → List.find (matches CLASS_TEACHER cls (Some id)) (teachers w) = None) →
      (if validate_teacher (set_t_classTeacherClass cls t1)
       then (inr (Response 200 (json_teacher (set_t_classTeacherClass cls t1))),
             set_teachers (replace_doc t_id (set_t_classTeacherClass cls t1) (teachers w)) w)
       else server_error_message "PATCH /api/teachers/:id error:" ValidationError w)
      = (res, w') → consistent w').
    { clear Hrun. intros cls Hfree Hc. unfold server_error_message in Hc. unfold_M.
      destruct (validate_teacher _) eqn:Hv; simplify_eq; [| done].
      repeat split; cbn [students teachers set_teachers]; try done.
      - by apply Forall_replace_doc.
      - apply exclusive_replace; [done |]. cbn [t_role t_classTeacherClass t_id].
        intros _ Hcls t' Hin' Hct'.
        pose proof (proj1 (find_matches_None _ _ _) (Hfree Hcls) t' Hin' Hct').
        by simplify_eq. }
    destruct (strict_eq (field "role" body) (JStr CLASS_TEACHER)).
    + destruct (truthy (field "classTeacherClass" body)).
      * destruct (castString (field "classTeacherClass" body)) as [cls |].
        -- destruct (List.find (matches CLASS_TEACHER cls (Some id)) (teachers w)) eqn:Hq;
             [by simplify_eq |].
           by apply (Hsave cls).
        -- unfold server_error_message in Hrun. unfold_M. by simplify_eq.
      * by apply (Hsave "").
    + by apply (Hsave "").
  - (* DELETE /api/teachers/:id *)
    run_route Hrun; try done. split; [done |]. cbn. split.
    + by apply Forall_list_filter.
    + by apply exclusive_filter.
  - (* POST /api/classes/init *)
    run_route Hrun; try done.
    all: match goal with
         | Hc : new_Classes _ _ = _ |- _ => apply new_Classes_same_store in Hc as [? ?]
         end.
    all: eapply consistent_same; [| | exact Hw]; cbn; congruence.
  - (* POST /api/announcements *)
    run_route Hrun; try done.
    all: match goal with
         | Hd : sendAnnouncementEmailToTeachers ?x ?w1 = _ |- _ =>
             destruct (dispatch_returns x w1) as (w2 & Hd' & Hsame);
             rewrite Hd' in Hd; simplify_eq;
             destruct Hsame as (Hss & Hst & _)
         end.
    all: eapply consistent_same; [| | exact Hw];
      cbn [students teachers set_console set_announcements set_next_id] in *; congruence.
Qed.

(** Every world reached from empty collections by serving requests has
    valid students and teachers and at most one class teacher per class. *)
Theorem reachable_consistent (w : world) : reachable w → consistent w.
Proof.
  induction 1 as [w Hs Ht | w r _ IH].
  - unfold consistent. rewrite Hs, Ht. repeat split; try constructor.
    intros t1 t2 cls H1. by apply elem_of_nil in H1.
  - by apply serve_consistent.
Qed.

End Invariant.

(** * Further properties of the routes *)

Section FurtherProperties.
Context {env : Environment}.

Ltac run_in H :=
  unfold post_api_students, patch_api_students_id, post_api_students_id_payments,
    post_api_announcements, new_Student, new_Payment, new_Announcement,
    Student_save, Student_save_new, Student_findById, Announcement_save_new in H;
  unfold_M; repeat case_match; simplify_eq.

Lemma conflict_message_not_required (v : jsval) (t : teacher) :
  conflict_message v t ≠ "name, subject, role, email are required".
Proof. unfold conflict_message. cbn. discriminate. Qed.

(** X1. Each creation route answers 400 with its message on required
    fields, and leaves the world as it was, when one of its required fields
    is falsy (absent, null, false, zero or the empty string), and it gives
    that answer in no other case. For payments this holds whatever the
    identifier is: the fields are checked before the student is looked up. *)
Theorem missing_field_is_rejected (id : nat) (body : json) (w : world) :
  let students_error := Response 400 (json_error "name, age, class, feesDue are required") in
  let payments_error := Response 400 (json_error "amount and date are required") in
  let teachers_error := Response 400 (json_error "name, subject, role, email are required") in
  let announcements_error := Response 400 (json_error "text is required") in
  ((truthy (field "name" body) && truthy (field "age" body)
    && truthy (field "class" body) && truthy (field "feesDue" body) = false →
    post_api_students body w = (inr students_error, w))
   ∧ (fst (post_api_students body w) = inr students_error →
      truthy (field "name" body) && truthy (field "age" body)
      && truthy (field "class" body) && truthy (field "feesDue" body) = false))
  ∧ ((truthy (field "amount" body) && truthy (field "date" body) = false →
      post_api_students_id_payments id body w = (inr payments_error, w))
     ∧ (fst (post_api_students_id_payments id body w) = inr payments_error →
        truthy (field "amount" body) && truthy (field "date" body) = false))
  ∧ ((truthy (field "name" body) && truthy (field "subject" body)
      && truthy (field "role" body) && truthy (field "email" body) = false →
      post_api_teachers body w = (inr teachers_error, w))
     ∧ (fst (post_api_teachers body w) = inr teachers_error →
        truthy (field "name" body) && truthy (field "subject" body)
        && truthy (field "role" body) && truthy (field "email" body) = false))
  ∧ ((truthy (field "text" body) = false →
      post_api_announcements body w = (inr announcements_error, w))
     ∧ (fst (post_api_announcements body w) = inr announcements_error →
        truthy (field "text" body) = false)).
Proof.
  cbn zeta. repeat split.
  - intros Hf. unfold post_api_students. unfold_M.
    destruct (truthy (field "name" body)), (truthy (field "age" body)),
      (truthy (field "class" body)), (truthy (field "feesDue" body)); done.
  - destruct (post_api_students body w) as [r w'] eqn:Hrun. cbn [fst]. intros ->.
    unfold post_api_students in Hrun.
    destruct (truthy (field "name" body)), (truthy (field "age" body)),
      (truthy (field "class" body)), (truthy (field "feesDue" body)); try done.
    run_in Hrun.
  - intros Hf. unfold post_api_students_id_payments. unfold_M.
    destruct (truthy (field "amount" body)), (truthy (field "date" body)); done.
  - destruct (post_api_students_id_payments id body w) as [r w'] eqn:Hrun.
    cbn [fst]. intros ->. unfold post_api_students_id_payments in Hrun.
    destruct (truthy (field "amount" body)), (truthy (field "date" body)); try done.
    run_in Hrun.
  - intros Hf. rewrite post_teachers_run. cbn zeta.
    destruct (truthy (field "name" body)), (truthy (field "subject" body)),
      (truthy (field "role" body)), (truthy (field "email" body)); done.
  - rewrite post_teachers_run. cbn zeta.
    destruct (truthy (field "name" body)), (truthy (field "subject" body)),
      (truthy (field "role" body)), (truthy (field "email" body)); try done.
    cbn [negb orb]. unfold server_error. unfold_M. intros Hrun.
    repeat case_match; simplify_eq.
    all: by destruct (conflict_message_not_required (field "classTeacherClass" body) t).
  - intros Hf. unfold post_api_announcements. unfold_M. by rewrite Hf.
  - destruct (post_api_announcements body w) as [r w'] eqn:Hrun. cbn [fst]. intros ->.
    destruct (truthy (field "text" body)) eqn:Ht; [| done].
    unfold post_api_announcements, new_Announcement, Announcement_save_new in Hrun.
    unfold_M. rewrite Ht in Hrun. cbn [negb] in Hrun.
    repeat case_match; simplify_eq.
Qed.

(** X2. A student creation whose [name] and [class] are non-empty strings
    and whose [age] and [feesDue] are numbers other than zero is answered
    201 with a student that has the submitted fields, [fees.due] equal to
    [feesDue] and no payments, under a new identifier. The student is added
    after the stored ones, the other collections are as before, and the
    next GET /api/students lists it last. *)
Theorem student_is_created_as_submitted (body : json) (w : world)
    (name sclass : string) (age feesDue : Z) :
  field "name" body = JStr name → name ≠ "" →
  field "age" body = JNum age → age ≠ 0%Z →
  field "class" body = JStr sclass → sclass ≠ "" →
  field "feesDue" body = JNum feesDue → feesDue ≠ 0%Z →
  ∃ saved w',
    post_api_students body w = (inr (Response 201 (json_student saved)), w')
    ∧ saved = Student (next_id w) name age sclass feesDue []
    ∧ students w' = (students w ++ [saved])%list
    ∧ teachers w' = teachers w ∧ classes w' = classes w
    ∧ announcements w' = announcements w
    ∧ get_api_students w'
      = (inr (Reply 200 (json_students (students w ++ [saved]))), w').
Proof.
  intros Hn Hn' Ha Ha' Hc Hc' Hd Hd'.
  unfold post_api_students, new_Student, Student_save_new. unfold_M.
  rewrite Hn, Ha, Hc, Hd, !castString_str, !castNumber_num.
  rewrite (proj2 (truthy_str name) Hn'), (proj2 (truthy_str sclass) Hc'),
    (proj2 (truthy_num age) Ha'), (proj2 (truthy_num feesDue) Hd').
  cbn [negb orb]. unfold validate_student. cbn [s_name s_class].
  rewrite (proj2 (nonempty_true name) Hn'), (proj2 (nonempty_true sclass) Hc').
  cbn [andb]. eexists _, _. split; [reflexivity |]. by repeat split.
Qed.

Lemma patch_student_missing (id : nat) (body : json) (w : world) :
  List.find (has_id s_id id) (students w) = None →
  patch_api_students_id id body w
  = (inr (Response 404 (json_error "Student not found")),
     set_console (console w ++ [console_log "PATCH /api/students/:id body:"]) w).
Proof.
  intros Hfind. unfold patch_api_students_id, Student_findById. unfold_M. cbn.
  by rewrite Hfind.
Qed.

(** X3. With an identifier that no record has, the update of a student, of
    a teacher and of a class, and a payment with truthy [amount] and
    [date], are answered 404 and the collections are as before. *)
Theorem unknown_identifier_is_not_found (id : nat) (body : json) (w : world) :
  (Student_findById id w = (inr None, w) →
   (∃ w', patch_api_students_id id body w
          = (inr (Response 404 (json_error "Student not found")), w')
          ∧ same_store w w')
   ∧ (truthy (field "amount" body) = true → truthy (field "date" body) = true →
      post_api_students_id_payments id body w
      = (inr (Response 404 (json_error "Student not found")), w)))
  ∧ (Teacher_findById id w = (inr None, w) →
     patch_api_teachers_id id body w
     = (inr (Response 404 (json_error "Teacher not found")), w))
  ∧ (ClassModel_findById id w = (inr None, w) →
     patch_api_classes_id id body w
     = (inr (Reply 404 (json_payload (json_error "Class not found"))), w)).
Proof.
  split; [| split].
  - intros Hf%find_by_id_run. split.
    + rewrite patch_student_missing by done. eexists. split; [reflexivity | done].
    + intros Ha Hd.
      unfold post_api_students_id_payments, Student_findById. unfold_M.
      rewrite Ha, Hd. cbn. by rewrite Hf.
  - intros Hf%find_by_id_run. by apply patch_teacher_missing.
  - intros Hf%find_by_id_run.
    unfold patch_api_classes_id, ClassModel_findById. unfold_M. by rewrite Hf.
Qed.

(** X4. A creation with the role Class Teacher and a falsy or absent
    [classTeacherClass] runs no conflict query: with [name], [subject] and
    [email] non-empty strings it is answered 201 whatever teachers are
    stored, and the new teacher has an empty [classTeacherClass]. *)
Theorem class_teacher_without_class_is_created (body : json) (w : world)
    (name subject email : string) :
  field "name" body = JStr name → name ≠ "" →
  field "subject" body = JStr subject → subject ≠ "" →
  field "email" body = JStr email → email ≠ "" →
  field "role" body = JStr CLASS_TEACHER →
  truthy (field "classTeacherClass" body) = false →
  ∃ saved w',
    post_api_teachers body w = (inr (Response 201 (json_teacher saved)), w')
    ∧ saved = Teacher (next_id w) name subject CLASS_TEACHER "" email
    ∧ teachers w' = (teachers w ++ [saved])%list.
Proof.
  intros Hn Hn' Hs Hs' He He' Hr Hc.
  rewrite post_teachers_run. cbn zeta. unfold js_or. rewrite Hn, Hs, He, Hr, Hc.
  rewrite (proj2 (truthy_str name) Hn'), (proj2 (truthy_str subject) Hs'),
    (proj2 (truthy_str email) He').
  unfold strict_eq. rewrite bool_decide_eq_true_2 by done.
  rewrite !castString_str.
  cbn [negb orb andb truthy String.eqb CLASS_TEACHER Ascii.eqb Bool.eqb].
  assert (validate_teacher (Teacher (next_id w) name subject CLASS_TEACHER "" email)
          = true) as ->.
  { unfold validate_teacher. cbn [t_name t_subject t_role t_email].
    rewrite !(proj2 (nonempty_true _)); done. }
  eexists _, _. split; [reflexivity |]. by split.
Qed.

(** X5. An update that submits the role Class Teacher and a class of which
    another stored teacher is the class teacher is answered 400 with the
    conflict message that carries the name of such a teacher, other than the
    one updated, and the world is left as it was. *)
Theorem update_into_a_held_class_is_refused (id : nat) (body : json) (w : world)
    (t holder : teacher) (cls : string) :
  Teacher_findById id w = (inr (Some t), w) →
  holder ∈ teachers w → t_id holder ≠ id → class_teacher_of cls holder → cls ≠ "" →
  field "role" body = JStr CLASS_TEACHER →
  field "classTeacherClass" body = JStr cls →
  ∃ existing,
    existing ∈ teachers w ∧ class_teacher_of cls existing ∧ t_id existing ≠ id
    ∧ patch_api_teachers_id id body w
      = (inr (Response 400 (json_error
                ("Class " ++ dquote ++ cls ++ dquote
                 ++ " already has a class teacher (" ++ t_name existing ++ ")."))), w).
Proof.
  intros Hfind%find_by_id_run Hin Hid Hct Hcls Hr Hc.
  rewrite (patch_teacher_found id body w t Hfind). cbn zeta.
  rewrite Hr, Hc, castString_str. unfold strict_eq.
  rewrite bool_decide_eq_true_2 by done. rewrite (proj2 (truthy_str cls) Hcls).
  destruct (List.find (matches CLASS_TEACHER cls (Some id)) (teachers w))
    as [existing |] eqn:Hq.
  - apply find_matches_Some in Hq as (Hin' & Hct' & Hne).
    exists existing. repeat split; try apply Hct'; try done.
    + by apply Hne.
    + unfold conflict_message. by rewrite toString_str.
  - pose proof (proj1 (find_matches_None _ _ _) Hq holder Hin Hct). by simplify_eq.
Qed.


(** The creation of a class teacher of a class, for well-typed fields. *)
Lemma post_class_teacher_run (body : json) (w : world)
    (name subject email cls : string) :
  field "name" body = JStr name → name ≠ "" →
  field "subject" body = JStr subject → subject ≠ "" →
  field "email" body = JStr email → email ≠ "" →
  field "role" body = JStr CLASS_TEACHER →
  field "classTeacherClass" body = JStr cls → cls ≠ "" →
  post_api_teachers body w
  = match List.find (matches CLASS_TEACHER cls None) (teachers w) with
    | Some existing =>
        (inr (Response 400 (json_error
                ("Class " ++ dquote ++ cls ++ dquote
                 ++ " already has a class teacher (" ++ t_name existing ++ ")."))), w)
    | None =>
        let saved := Teacher (next_id w) name subject CLASS_TEACHER cls email in
        (inr (Response 201 (json_teacher saved)),
         set_teachers (teachers w ++ [saved]) (set_next_id (S (next_id w)) w))
    end.
Proof.
  intros Hn Hn' Hs Hs' He He' Hr Hc Hc'.
  rewrite post_teachers_run. cbn zeta. unfold js_or. rewrite Hn, Hs, He, Hr, Hc.
  rewrite (proj2 (truthy_str name) Hn'), (proj2 (truthy_str subject) Hs'),
    (proj2 (truthy_str email) He'), (proj2 (truthy_str cls) Hc').
  unfold strict_eq. rewrite bool_decide_eq_true_2 by done.
  rewrite !castString_str.
  cbn [negb orb andb truthy String.eqb CLASS_TEACHER Ascii.eqb Bool.eqb].
  destruct (List.find _ (teachers w)) as [existing |].
  - unfold conflict_message. by rewrite toString_str.
  - assert (validate_teacher (Teacher (next_id w) name subject CLASS_TEACHER cls email)
            = true) as ->; [| reflexivity].
    unfold validate_teacher. cbn [t_name t_subject t_role t_email].
    rewrite !(proj2 (nonempty_true _)); done.
Qed.

Lemma find_app_None {A} (f : A → bool) (l1 l2 : list A) :
  List.find f l1 = None → List.find f (l1 ++ l2) = List.find f l2.
Proof.
  induction l1 as [| x l1 IH]; [done |]. cbn. destruct (f x); [done | exact IH].
Qed.

(** X6. When no stored teacher is the class teacher of a class, a valid
    creation of a class teacher of that class is answered 201, and a second
    valid creation for the same class, served next, is answered 400 with the
    conflict message that carries the name of the first; it writes nothing. *)
Theorem second_class_teacher_is_refused (first second : json) (w : world)
    (name1 subject1 email1 name2 subject2 email2 cls : string) :
  field "name" first = JStr name1 → name1 ≠ "" →
  field "subject" first = JStr subject1 → subject1 ≠ "" →
  field "email" first = JStr email1 → email1 ≠ "" →
  field "role" first = JStr CLASS_TEACHER →
  field "classTeacherClass" first = JStr cls →
  field "name" second = JStr name2 → name2 ≠ "" →
  field "subject" second = JStr subject2 → subject2 ≠ "" →
  field "email" second = JStr email2 → email2 ≠ "" →
  field "role" second = JStr CLASS_TEACHER →
  field "classTeacherClass" second = JStr cls →
  cls ≠ "" →
  (∀ t, t ∈ teachers w → ¬ class_teacher_of cls t) →
  ∃ saved w1,
    post_api_teachers first w = (inr (Response 201 (json_teacher saved)), w1)
    ∧ t_name saved = name1 ∧ class_teacher_of cls saved
    ∧ post_api_teachers second w1
      = (inr (Response 400 (json_error
                ("Class " ++ dquote ++ cls ++ dquote
                 ++ " already has a class teacher (" ++ name1 ++ ")."))), w1).
Proof.
  intros Hn1 Hn1' Hs1 Hs1' He1 He1' Hr1 Hc1 Hn2 Hn2' Hs2 Hs2' He2 He2' Hr2 Hc2 Hcls Hfree.
  assert (Hnone : List.find (matches CLASS_TEACHER cls None) (teachers w) = None).
  { apply find_matches_None. intros t Hin Hct. by destruct (Hfree t Hin). }
  rewrite (post_class_teacher_run first w name1 subject1 email1 cls) by done.
  rewrite Hnone. cbn zeta. eexists _, _. split; [reflexivity |].
  split; [done |]. split; [done |].
  rewrite (post_class_teacher_run second _ name2 subject2 email2 cls) by done.
  cbn [teachers set_teachers]. rewrite (find_app_None _ _ _ Hnone). cbn [List.find].
  assert (matches CLASS_TEACHER cls None
            (Teacher (next_id w) name1 subject1 CLASS_TEACHER cls email1) = true) as ->.
  { by apply matches_spec. }
  reflexivity.
Qed.

(** X7. In a store with at most one class teacher per class, once the class
    teacher of a class is deleted, or is updated (200) with a submitted role
    other than Class Teacher, a valid creation of a class teacher of that
    class is answered 201. *)
Theorem leaving_frees_the_class (id : nat) (body : json) (w : world)
    (holder : teacher) (name subject email cls : string) :
  Teacher_findById id w = (inr (Some holder), w) →
  exclusive (teachers w) → class_teacher_of cls holder → cls ≠ "" →
  field "name" body = JStr name → name ≠ "" →
  field "subject" body = JStr subject → subject ≠ "" →
  field "email" body = JStr email → email ≠ "" →
  field "role" body = JStr CLASS_TEACHER →
  field "classTeacherClass" body = JStr cls →
  (∃ saved w2,
     post_api_teachers body (snd (delete_api_teachers_id id w))
     = (inr (Response 201 (json_teacher saved)), w2)
     ∧ class_teacher_of cls saved)
  ∧ (∀ update res w1,
       field "role" update ≠ JStr CLASS_TEACHER →
       patch_api_teachers_id id update w = (inr res, w1) → status res = 200 →
       ∃ saved w2,
         post_api_teachers body w1 = (inr (Response 201 (json_teacher saved)), w2)
         ∧ class_teacher_of cls saved).
Proof.
  intros Hfind%find_by_id_run Hex Hct Hcls Hn Hn' Hs Hs' He He' Hr Hc.
  destruct (find_has_id _ _ _ _ Hfind) as [Hid Hin].
  assert (Hcreate : ∀ w1,
    (∀ t, t ∈ teachers w1 → class_teacher_of cls t → False) →
    ∃ saved w2,
      post_api_teachers body w1 = (inr (Response 201 (json_teacher saved)), w2)
      ∧ class_teacher_of cls saved).
  { intros w1 Hfree.
    rewrite (post_class_teacher_run body w1 name subject email cls) by done.
    assert (List.find (matches CLASS_TEACHER cls None) (teachers w1) = None) as ->.
    { apply find_matches_None. intros t Hin' Hct'. by destruct (Hfree t Hin'). }
    cbn zeta. eexists _, _. split; [reflexivity | done]. }
  split.
  - apply Hcreate. cbn. intros t' Hin' Hct'.
    apply list_elem_of_In, List.filter_In in Hin' as [Hin' Hne].
    apply list_elem_of_In in Hin'. apply negb_true_iff, bool_decide_eq_false in Hne.
    apply Hne. rewrite <- Hid. by apply (Hex t' holder cls).
  - intros update res w1 Hrole Hrun H200. apply Hcreate.
    rewrite (patch_teacher_found id update w holder Hfind) in Hrun. cbn zeta in Hrun.
    unfold strict_eq in Hrun. rewrite bool_decide_eq_false_2 in Hrun by done.
    destruct (validate_teacher _) in Hrun.
    2: { unfold server_error_message in Hrun. unfold_M. by simplify_eq. }
    injection Hrun as <- <-. cbn [teachers set_teachers].
    intros t' [-> | [Hin' Hne]]%elem_of_replace_doc [Hrole' Hcls'].
    + cbn in Hcls'. congruence.
    + apply Hne. cbn [t_id set_t_classTeacherClass].
      rewrite !assign_string_keeps by done. by apply (Hex t' holder cls).
Qed.


(** X8. An update of a stored class with a non-empty name is answered 200:
    [teacher] and [leader] hold the submitted value when it is a string and
    the previous value otherwise, [name] and the identifier are as before
    whatever the body holds, the class is stored under the identifier, and
    the other classes and collections are as before. The teacher named is
    not looked up among the teachers. *)
Theorem class_update_is_type_guarded (id : nat) (body : json) (w : world) (c : class) :
  ClassModel_findById id w = (inr (Some c), w) →
  validate_class c = true →
  ∃ saved w',
    patch_api_classes_id id body w = (inr (Reply 200 (json_class saved)), w')
    ∧ guarded_string (field "teacher" body) (c_teacher c) (c_teacher saved)
    ∧ guarded_string (field "leader" body) (c_leader c) (c_leader saved)
    ∧ c_name saved = c_name c ∧ c_id saved = c_id c
    ∧ ClassModel_findById id w' = (inr (Some saved), w')
    ∧ (∀ j, j ≠ id → fst (ClassModel_findById j w') = fst (ClassModel_findById j w))
    ∧ students w' = students w ∧ teachers w' = teachers w
    ∧ announcements w' = announcements w.
Proof.
  intros Hfind%find_by_id_run Hv.
  destruct (find_has_id _ _ _ _ Hfind) as [Hid _].
  set (c' := assign_string set_c_leader (field "leader" body)
               (assign_string set_c_teacher (field "teacher" body) c)).
  assert (Hname : c_name c' = c_name c).
  { subst c'. by rewrite !assign_string_keeps. }
  assert (Hid' : c_id c' = id).
  { subst c'. by rewrite !assign_string_keeps. }
  unfold patch_api_classes_id, ClassModel_save, ClassModel_findById. unfold_M.
  rewrite Hfind. fold c'. unfold validate_class. rewrite Hname.
  unfold validate_class in Hv. rewrite Hv, Hid', Hfind.
  exists c'. eexists. split; [reflexivity |]. cbn [classes set_classes].
  split; [| split; [| split; [done | split; [congruence | split; [| split]]]]].
  - subst c'. rewrite (assign_string_keeps set_c_leader c_teacher) by done.
    by apply (guarded_string_assign set_c_teacher c_teacher).
  - subst c'. destruct (field "leader" body), (field "teacher" body);
      split; cbn; intros; congruence.
  - unfold gets. f_equal. f_equal. rewrite <- Hid'.
    apply (find_replace_same c_id c' c). by rewrite Hid'.
  - intros j Hj. unfold gets. cbn. f_equal.
    apply (find_replace_other c_id c'). congruence.
  - done.
Qed.

Lemma insert_newest_first_perm (a : announcement) (l : list announcement) :
  insert_newest_first a l ≡ₚ a :: l.
Proof.
  induction l as [| b l IH]; [done |]. cbn.
  destruct (Nat.leb _ _); [done |]. rewrite IH. apply Permutation_swap.
Qed.

Lemma insert_newest_first_sorted (a : announcement) (l : list announcement) :
  newest_first l → newest_first (insert_newest_first a l).
Proof.
  unfold newest_first. induction 1 as [| b l Hsorted IH Hall]; cbn.
  - repeat constructor.
  - destruct (Nat.leb_spec (a_createdAt b) (a_createdAt a)) as [Hle | Hlt].
    + constructor; [by constructor |]. constructor; [done |].
      eapply Forall_impl; [exact Hall |]. cbn. lia.
    + constructor; [exact IH |].
      rewrite insert_newest_first_perm. constructor; [lia | done].
Qed.

(** X9. GET /api/announcements is answered 200 with the stored
    announcements, each once, the newest first, and changes nothing. *)
Theorem announcements_are_listed_newest_first (w : world) :
  ∃ l, get_api_announcements w = (inr (Reply 200 (json_announcements l)), w)
    ∧ l ≡ₚ announcements w
    ∧ newest_first l.
Proof.
  exists (sort_newest_first (announcements w)). split; [reflexivity |].
  unfold sort_newest_first. induction (announcements w) as [| a l [IHp IHs]]; cbn.
  - split; [done | constructor].
  - split.
    + by rewrite insert_newest_first_perm, IHp.
    + by apply insert_newest_first_sorted.
Qed.


Lemma set_next_id_twice (n m : nat) (w : world) :
  set_next_id n (set_next_id m w) = set_next_id n w.
Proof. reflexivity. Qed.

Lemma new_Classes_counter (docs : list json) (w w' : world) (r : exn + list class) :
  new_Classes docs w = (r, w') → ∃ n, w' = set_next_id n w.
Proof.
  revert w w' r. induction docs as [| doc docs IH]; intros w w' r.
  - cbn. unfold_M. intros [= _ <-]. exists (next_id w). by destruct w.
  - cbn [new_Classes]. unfold new_Class. unfold_M.
    destruct (castString _); [| intros [= _ <-]; by eexists].
    destruct (new_Classes docs _) as [[e | cs] w1] eqn:Hrest;
      apply IH in Hrest as [n ->]; intros [= _ <-]; by eexists.
Qed.

Lemma send_each_outbox (text : string) (ts : list teacher) (w w' : world)
    (r : exn + unit) :
  send_each text ts w = (r, w') → ∃ mails, outbox w' = (outbox w ++ mails)%list.
Proof.
  revert w. induction ts as [| t ts IH]; intros w.
  - cbn. unfold_M. intros [= _ <-]. exists []. by rewrite app_nil_r.
  - cbn [send_each]. unfold sgMail_send. unfold_M.
    destruct (transport _); [intros [= _ <-]; by eexists |].
    intros [mails Hrest]%IH. cbn in Hrest. rewrite <- app_assoc in Hrest. by eexists.
Qed.

Lemma dispatch_outbox (text : string) (w w' : world) (r : exn + unit) :
  sendAnnouncementEmailToTeachers text w = (r, w') →
  ∃ mails, outbox w' = (outbox w ++ mails)%list.
Proof.
  unfold sendAnnouncementEmailToTeachers, Teacher_find_with_email.
  unfold try_catch, log, modify, gets. unfold mbind at 1 2, M_bind.
  cbn [teachers set_console].
  destruct (Nat.eqb _ 0).
  - intros [= _ <-]. exists []. cbn. by rewrite app_nil_r.
  - destruct (send_each _ _ _) as [[err | []] w1] eqn:Hsend;
      apply send_each_outbox in Hsend as [mails Hsend]; intros [= _ <-]; by exists mails.
Qed.

Ltac run_all H :=
  unfold respond, serve, reply_of, get_root, get_api_students, get_api_teachers,
    get_api_classes, get_api_announcements, patch_api_classes_id, reply_error,
    Student_find, Teacher_find, ClassModel_find, Announcement_find_sorted,
    ClassModel_save, ClassModel_findById,
    post_api_students, patch_api_students_id, post_api_students_id_payments,
    delete_api_students_id, delete_api_teachers_id, post_api_classes_init,
    post_api_announcements, new_Student, new_Payment, new_Announcement,
    Student_save, Student_save_new, Student_findById, Student_findByIdAndDelete,
    Teacher_findByIdAndDelete, ClassModel_countDocuments, ClassModel_insertMany,
    Announcement_save_new in H;
  unfold_M; repeat case_match; simplify_eq.

(** X10. A route writes to its own collection only: the students, the
    teachers and the classes are as before unless the route is one that
    writes to them, and the announcements and the outbox are as before
    unless an announcement is created. No route removes or changes an
    announcement (at most one is added at the end) and no route takes a
    message back from the outbox. *)
Theorem routes_write_their_own_collection (q : api_request) (w : world) :
  let w' := snd (respond q w) in
  (written q ≠ Some Students → students w' = students w)
  ∧ (written q ≠ Some Teachers → teachers w' = teachers w)
  ∧ (written q ≠ Some Classes → classes w' = classes w)
  ∧ (written q ≠ Some Announcements →
     announcements w' = announcements w ∧ outbox w' = outbox w)
  ∧ (∃ added, announcements w' = (announcements w ++ added)%list ∧ (length added ≤ 1)%nat)
  ∧ (∃ mails, outbox w' = (outbox w ++ mails)%list).
Proof.
  cbn zeta. destruct (respond q w) as [res w'] eqn:Hrun. cbn [snd].
  assert (Hquiet : announcements w' = announcements w → outbox w' = outbox w →
    (∃ added, announcements w' = (announcements w ++ added)%list ∧ (length added ≤ 1)%nat)
    ∧ (∃ mails, outbox w' = (outbox w ++ mails)%list)).
  { intros -> ->. split; exists []; rewrite app_nil_r; [split; [done | cbn; lia] | done]. }
  destruct q as [[body | id body | id body | id | body | id body | id | | body]
                | | | | | id body |].
  5: { (* POST /api/teachers *)
    cbn [respond serve] in Hrun. unfold mbind at 1, M_bind in Hrun.
    rewrite post_teachers_run in Hrun. cbn zeta in Hrun.
    unfold server_error, reply_of in Hrun. unfold_M.
    repeat case_match; simplify_eq; cbn; by (split_and?; try apply Hquiet). }
  5: { (* PATCH /api/teachers/:id *)
    cbn [respond serve] in Hrun. unfold mbind at 1, M_bind in Hrun.
    destruct (List.find (has_id t_id id) (teachers w)) as [t |] eqn:Hfind.
    - rewrite (patch_teacher_found id body w t Hfind) in Hrun. cbn zeta in Hrun.
      unfold server_error_message, reply_of in Hrun. unfold_M.
      repeat case_match; simplify_eq; cbn; by (split_and?; try apply Hquiet).
    - rewrite patch_teacher_missing in Hrun by done. unfold_M. simplify_eq.
      by (split_and?; try apply Hquiet). }
  all: run_all Hrun.
  all: try (cbn; by (split_and?; try apply Hquiet)).
  - (* POST /api/classes/init *)
    match goal with
    | Hc : new_Classes _ _ = _ |- _ => apply new_Classes_counter in Hc as [n ->]
    end.
    cbn; by (split_and?; try apply Hquiet).
  - match goal with
    | Hc : new_Classes _ _ = _ |- _ => apply new_Classes_counter in Hc as [n ->]
    end.
    cbn; by (split_and?; try apply Hquiet).
  - match goal with
    | Hc : new_Classes _ _ = _ |- _ => apply new_Classes_counter in Hc as [n ->]
    end.
    cbn; by (split_and?; try apply Hquiet).
  - (* POST /api/announcements *)
    match goal with
    | Hd : sendAnnouncementEmailToTeachers ?x ?w0 = _ |- _ =>
        destruct (dispatch_returns x w0) as (w2 & Hd' & _); rewrite Hd' in Hd
    end.
    discriminate.
  - clear Hquiet.
    match goal with
    | Hd : sendAnnouncementEmailToTeachers ?x ?w0 = _ |- _ =>
        pose proof (dispatch_outbox _ _ _ _ Hd) as [mails Hout];
        destruct (dispatch_returns x w0) as (w2 & Hd' & Hss & Hst & Hsc & Hsa & _);
        rewrite Hd' in Hd; simplify_eq
    end.
    cbn in *. split_and?; try done; try congruence.
    + eexists [_]. split; [by rewrite Hsa | cbn; lia].
    + by exists mails.
Qed.


Lemma respond_consistent (q : api_request) (w : world) :
  consistent w → consistent (snd (respond q w)).
Proof.
  intros Hw. destruct q as [r | | | | | id body |].
  - cbn [respond]. unfold mbind, M_bind.
    pose proof (serve_consistent r w Hw) as Hr.
    by destruct (serve r w) as [[e | res] w'].
  - done.
  - done.
  - done.
  - done.
  - destruct (respond (PATCH_classes id body) w) as [res w'] eqn:Hrun. cbn [snd].
    run_all Hrun; done.
  - done.
Qed.

(** X11. From a world whose students and teachers satisfy their schema and
    where no class has two class teachers, any sequence of requests, served
    one after the other, leads to such a world. *)
Theorem exclusivity_is_kept (qs : list api_request) (w : world) :
  consistent w → consistent (respond_all qs w).
Proof.
  unfold respond_all. revert w. induction qs as [| q qs IH]; intros w Hw; [done |].
  cbn [foldl]. by apply IH, respond_consistent.
Qed.

Lemma field_payment_body (a : Z) (d : string) :
  field "amount" ({[ "amount" := JNum a; "date" := JStr d ]} : json) = JNum a
  ∧ field "date" ({[ "amount" := JNum a; "date" := JStr d ]} : json) = JStr d.
Proof.
  unfold field. split.
  - by rewrite lookup_insert_eq.
  - rewrite lookup_insert_ne by done. by rewrite lookup_singleton_eq.
Qed.

Lemma payment_run (id : nat) (body : json) (w : world) (s : student) (a : Z) (d : string) :
  List.find (has_id s_id id) (students w) = Some s →
  validate_student s = true →
  field "amount" body = JNum a → a ≠ 0%Z →
  field "date" body = JStr d → d ≠ "" →
  let saved := push_payment (Payment (next_id w) a d) s in
  post_api_students_id_payments id body w
  = (inr (Response 200 (json_student saved)),
     set_students (replace_doc s_id saved (students w)) (set_next_id (S (next_id w)) w)).
Proof.
  intros Hfind Hvalid Ha Hnz Hd Hne saved.
  destruct (find_has_id _ _ _ _ Hfind) as [Hid _].
  apply truthy_num in Hnz. apply truthy_str in Hne.
  unfold post_api_students_id_payments, Student_findById, new_Payment.
  rewrite Ha, Hd, Hnz, Hne. unfold_M. cbn. rewrite Hfind.
  rewrite castNumber_num, castString_str. fold saved.
  rewrite (Student_save_found saved s); [reflexivity | exact Hvalid |].
  cbn. rewrite Hid. exact Hfind.
Qed.

(** X12. Payments with non-zero amounts and non-empty dates, appended one
    after the other to a stored student, are recorded after the previous
    payments in the order of the requests; [fees.due], [name], [age] and
    [class] are as before. *)
Theorem payments_accumulate_in_order (id : nat) (entries : list (Z * string))
    (w : world) (s : student) :
  Student_findById id w = (inr (Some s), w) →
  validate_student s = true →
  Forall (λ e, e.1 ≠ 0%Z ∧ e.2 ≠ "") entries →
  let requests :=
    map (λ e, POST_students_payments id {[ "amount" := JNum e.1; "date" := JStr e.2 ]})
      entries in
  ∃ s', Student_findById id (serve_all requests w)
        = (inr (Some s'), serve_all requests w)
    ∧ map (λ p, (amount p, date p)) (s_fees_payments s')
      = (map (λ p, (amount p, date p)) (s_fees_payments s) ++ entries)%list
    ∧ s_fees_due s' = s_fees_due s
    ∧ s_name s' = s_name s ∧ s_age s' = s_age s ∧ s_class s' = s_class s.
Proof.
  intros Hfind%find_by_id_run Hvalid Hall. cbn zeta.
  revert w s Hfind Hvalid. induction Hall as [| [a d] entries [Ha Hd] _ IH];
    intros w s Hfind Hvalid.
  - exists s. unfold Student_findById, gets. cbn. rewrite Hfind, app_nil_r. done.
  - unfold serve_all. cbn [map foldl serve fst snd]. cbn [fst snd] in Ha, Hd.
    fold (serve_all (env := env)).
    destruct (field_payment_body a d) as [Hfa Hfd].
    rewrite (payment_run id _ w s a d Hfind Hvalid Hfa Ha Hfd Hd). cbn [snd].
    destruct (find_has_id _ _ _ _ Hfind) as [Hid _].
    set (saved := push_payment (Payment (next_id w) a d) s).
    destruct (IH (set_students (replace_doc s_id saved (students w))
                    (set_next_id (S (next_id w)) w)) saved)
      as (s' & Hfind' & Hpay & Hdue & Hname & Hage & Hclass).
    + cbn [students set_students]. rewrite <- Hid.
      apply (find_replace_same s_id saved s). cbn. by rewrite Hid.
    + exact Hvalid.
    + exists s'. split; [exact Hfind' |]. split; [| by repeat split].
      rewrite Hpay. cbn. rewrite map_app, <- app_assoc. reflexivity.
Qed.

(** X13. An update of a stored student that submits the empty string as
    [name] or [class] passes the [typeof] guard and is refused by the
    schema on save: it is answered 500 and the students are as before. An
    update of a stored teacher that submits the empty string as [name],
    [subject], [role] or [email] is answered 400 or 500 and the teachers
    are as before. *)
Theorem empty_string_update_is_not_saved (id : nat) (body : json) (w : world) :
  (∀ s, Student_findById id w = (inr (Some s), w) →
     field "name" body = JStr "" ∨ field "class" body = JStr "" →
     ∃ res w', patch_api_students_id id body w = (inr res, w')
       ∧ status res = 500 ∧ students w' = students w)
  ∧ (∀ t, Teacher_findById id w = (inr (Some t), w) →
       field "name" body = JStr "" ∨ field "subject" body = JStr ""
       ∨ field "role" body = JStr "" ∨ field "email" body = JStr "" →
       ∃ res w', patch_api_teachers_id id body w = (inr res, w')
         ∧ (status res = 400 ∨ status res = 500) ∧ teachers w' = teachers w).
Proof.
  split.
  - intros s Hfind%find_by_id_run Hempty.
    rewrite (patch_student_found id body w s Hfind). cbn zeta.
    destruct (student_updates_guarded body s) as ([Hn _] & _ & [Hc _] & _).
    set (s' := assign_number _ _ _) in *.
    assert (validate_student s' = false) as ->.
    { unfold validate_student. destruct Hempty as [He | He]; rewrite He in *.
      - specialize (Hn eq_refl). injection Hn as <-. reflexivity.
      - specialize (Hc eq_refl). injection Hc as <-. apply andb_false_r. }
    unfold server_error_message. unfold_M. by eexists _, _.
  - intros t Hfind%find_by_id_run Hempty.
    rewrite (patch_teacher_found id body w t Hfind). cbn zeta.
    destruct (teacher_updates_guarded body t) as ([Hn _] & [Hs _] & [Hr _] & [He _] & _).
    set (t1 := assign_string _ _ _) in *.
    assert (Hinvalid : ∀ cls, validate_teacher (set_t_classTeacherClass cls t1) = false).
    { intros cls. unfold validate_teacher. cbn [t_name t_subject t_role t_email
        set_t_classTeacherClass].
      destruct Hempty as [H0 | [H0 | [H0 | H0]]]; rewrite H0 in *.
      - specialize (Hn eq_refl). injection Hn as <-. reflexivity.
      - specialize (Hs eq_refl). injection Hs as <-. cbn. by rewrite andb_false_r.
      - specialize (Hr eq_refl). injection Hr as <-. cbn.
        by rewrite andb_false_r.
      - specialize (He eq_refl). injection He as <-. cbn. by rewrite andb_false_r. }
    unfold server_error_message. unfold_M.
    repeat case_match; simplify_eq; rewrite ?Hinvalid in *; simplify_eq;
      eexists _, _; (split; [reflexivity |]); cbn; split; auto.
Qed.


(** The announcement route up to what the dispatch does to the outbox and
    the console. *)
Lemma post_announcements_run (body : json) (w : world) :
  let text := field "text" body in
  let w1 := set_next_id (S (next_id w)) w in
  ∃ w',
    post_api_announcements body w
    = (inr (if negb (truthy text) then Response 400 (json_error "text is required")
            else match castString text with
                 | Some x =>
                     if nonempty x
                     then Response 201 (json_announcement (Announcement (next_id w) x (now w)))
                     else Response 500 (json_error "Server error")
                 | None => Response 500 (json_error "Server error")
                 end), w')
    ∧ same_store
        (if negb (truthy text) then w
         else match castString text with
              | Some x =>
                  if nonempty x
                  then set_announcements
                         (announcements w ++ [Announcement (next_id w) x (now w)]) w1
                  else w1
              | None => w1
              end) w'.
Proof.
  cbn zeta. unfold post_api_announcements, new_Announcement, Announcement_save_new.
  unfold_M. destruct (negb (truthy (field "text" body))); [by eexists |].
  destruct (castString (field "text" body)) as [x |]; [| by eexists].
  unfold validate_announcement. cbn [a_text set_next_id now announcements].
  destruct (nonempty x); [| by eexists].
  cbn [a_text].
  match goal with
  | |- context [sendAnnouncementEmailToTeachers x ?w0] =>
      destruct (dispatch_returns x w0) as (w' & -> & Hsame)
  end.
  exists w'. split; [reflexivity | exact Hsame].
Qed.

End FurtherProperties.

(** X14. The answer to an announcement creation and the collections it
    leaves do not depend on the mail transport. *)
Theorem announcement_reply_ignores_transport {env : Environment}
    (f g : message → option exn) (body : json) (w : world) :
  let with_f := post_api_announcements (env := with_transport f env) body w in
  let with_g := post_api_announcements (env := with_transport g env) body w in
  fst with_f = fst with_g ∧ same_store (snd with_f) (snd with_g).
Proof.
  cbn zeta.
  destruct (post_announcements_run (env := with_transport f env) body w)
    as (wf & -> & Hf).
  destruct (post_announcements_run (env := with_transport g env) body w)
    as (wg & -> & Hg).
  cbn [fst snd]. split; [reflexivity |].
  cbn [castString with_transport] in Hf, Hg.
  destruct Hf as (? & ? & ? & ? & ?), Hg as (? & ? & ? & ? & ?).
  unfold same_store. split_and?; congruence.
Qed.

(** * The statements at concrete requests *)

Lemma zero_is_rejected_as_missing_witness :
  post_api_students (env := reliable_env) body_zero_fees sample_world
  = (inr (Response 400 (json_error "name, age, class, feesDue are required")), sample_world)
  ∧ post_api_students_id_payments (env := reliable_env) 3 body_zero_amount sample_world
    = (inr (Response 400 (json_error "amount and date are required")), sample_world).
Proof.
  split.
  - apply (proj1 (zero_is_rejected_as_missing (env := reliable_env) 3 body_zero_fees
                    sample_world)).
    right. vm_compute. reflexivity.
  - apply (proj2 (zero_is_rejected_as_missing (env := reliable_env) 3 body_zero_amount
                    sample_world)).
    vm_compute. reflexivity.
Defined.

Lemma payment_is_appended_witness :
  ∃ entry saved w',
    post_api_students_id_payments (env := reliable_env) 3 body_payment sample_world
    = (inr (Response 200 (json_student saved)), w')
    ∧ amount entry = 100%Z ∧ date entry = "2024-01-01"
    ∧ s_fees_payments saved = [entry]
    ∧ s_fees_due saved = 500%Z.
Proof.
  destruct (payment_is_appended (env := reliable_env) 3 body_payment sample_world
              student_S eq_refl eq_refl eq_refl eq_refl)
    as (res & w' & Hrun & Hread & _).
  destruct (Hread 100%Z "2024-01-01" eq_refl eq_refl)
    as (entry & saved & -> & Ha & Hd & Hp & _ & Hdue & _).
  by exists entry, saved, w'.
Defined.

Lemma payment_of_another_type_is_not_appended :
  truthy (field "amount" body_payment_in_words) = true
  ∧ truthy (field "date" body_payment_in_words) = true
  ∧ Student_findById 3 sample_world = (inr (Some student_S), sample_world)
  ∧ post_api_students_id_payments (env := reliable_env) 3 body_payment_in_words sample_world
    = (inr (Response 500 (json_error "Server error")),
       set_console
         [console_error "POST /api/students/:id/payments error:" "Cast failed"]
         (set_next_id 5 sample_world))
  ∧ students (set_next_id 5 sample_world) = [student_S]
  ∧ s_fees_payments student_S = [].
Proof. repeat split; vm_compute; reflexivity. Qed.

Lemma classes_init_once_witness :
  ∃ created w',
    post_api_classes_init (env := reliable_env) empty_world
    = (inr (Response 201 (json_classes created)), w')
    ∧ map c_name created
      = ["Grade 1"; "Grade 2"; "Grade 3"; "Grade 4"; "Grade 5";
         "Grade 6"; "Grade 7"; "Grade 8"; "Grade 9"]
    ∧ post_api_classes_init (env := reliable_env) w'
      = (inr (Response 400 (json_error "Classes already initialized")), w').
Proof.
  destruct (proj2 (classes_init_once (env := reliable_env) empty_world) eq_refl)
    as (created & w' & Hrun & Hstored & Hlen & Hnames & _).
  exists created, w'. split; [done |]. split; [done |].
  apply (proj1 (classes_init_once (env := reliable_env) w')).
  rewrite Hstored. intros ->. discriminate Hlen.
Defined.

Lemma delete_is_idempotent_witness :
  delete_api_students_id (env := reliable_env) 99 sample_world
  = (inr (Response 204 no_content), sample_world)
  ∧ delete_api_teachers_id (env := reliable_env) 99 sample_world
    = (inr (Response 204 no_content), sample_world)
  ∧ Student_findById 3 (snd (delete_api_students_id (env := reliable_env) 3 sample_world))
    = (inr None, snd (delete_api_students_id (env := reliable_env) 3 sample_world)).
Proof.
  destruct (delete_is_idempotent (env := reliable_env) 99 "not-an-id" sample_world)
    as ((ws & Hs & Hsame_s & _) & (wt & Ht & Hsame_t & _) & _).
  destruct (delete_is_idempotent (env := reliable_env) 3 "not-an-id" sample_world)
    as ((w3 & H3 & _ & Hgone & _) & _).
  rewrite Hs, Ht, H3. rewrite (Hsame_s eq_refl), (Hsame_t eq_refl).
  split; [done |]. split; [done | exact Hgone].
Defined.

Lemma delete_of_a_malformed_identifier_fails :
  delete_api_students_id (env := reliable_env) (malformed "not-an-id") sample_world
  = (inr (Response 500 (json_error "Server error")),
     set_console [console_error "DELETE /api/students/:id error:" "Cast failed"]
       sample_world)
  ∧ delete_api_teachers_id (env := reliable_env) (malformed "not-an-id") sample_world
    = (inr (Response 500 (json_error "Server error")),
       set_console [console_error "DELETE /api/teachers/:id error:" "Cast failed"]
         sample_world).
Proof. split; reflexivity. Qed.

Lemma patch_is_type_guarded_witness :
  ∃ saved w',
    patch_api_students_id (env := reliable_env) 3 body_student_patch sample_world
    = (inr (Response 200 (json_student saved)), w')
    ∧ s_name saved = "Samuel" ∧ s_age saved = 9%Z
    ∧ s_class saved = "Grade 1" ∧ s_fees_due saved = 450%Z.
Proof.
  destruct (proj1 (patch_is_type_guarded (env := reliable_env) 3 body_student_patch
                     sample_world) student_S eq_refl)
    as (res & w' & Hrun & _ & Hok & Hsaved & _).
  assert (H200 : status res = 200) by (apply Hok; done).
  destruct (Hsaved H200)
    as (saved & Hsent & _ & [Hn _] & [_ Ha] & [_ Hc] & [Hd _] & _).
  exists saved, w'. destruct res as [st pl]. cbn in H200, Hsent. subst st pl.
  split; [done |].
  specialize (Hn eq_refl). specialize (Hd eq_refl).
  injection Hn as <-. injection Hd as <-.
  rewrite Ha, Hc by done. done.
Defined.



Lemma patch_clears_an_absent_class :
  body_rename !! "classTeacherClass" = None
  ∧ Teacher_findById 0 sample_world = (inr (Some teacher_A), sample_world)
  ∧ t_classTeacherClass teacher_A = "Grade 1"
  ∧ ∃ w', patch_api_teachers_id (env := reliable_env) 0 body_rename sample_world
          = (inr (Response 200 (json_teacher
                    (Teacher 0 "Ann B" "Maths" "Class Teacher" "" "ann@school.example"))), w')
          ∧ Teacher_findById 0 w'
            = (inr (Some (Teacher 0 "Ann B" "Maths" "Class Teacher" ""
                            "ann@school.example")), w').
Proof.
  repeat split; try (vm_compute; reflexivity).
  eexists. split; vm_compute; reflexivity.
Qed.

Lemma patch_without_role_clears_class_witness :
  ∃ saved w',
    patch_api_teachers_id (env := reliable_env) 0 body_rename sample_world
    = (inr (Response 200 (json_teacher saved)), w')
    ∧ t_role teacher_A = "Class Teacher"
    ∧ t_role saved = "Class Teacher"
    ∧ t_classTeacherClass saved = "".
Proof.
  destruct (patch_without_role_clears_class (env := reliable_env) 0 body_rename
              sample_world teacher_A eq_refl)
    as (res & w' & Hrun & _ & Hok & Hsaved); [done |].
  assert (H200 : status res = 200) by (apply Hok; done).
  destruct (Hsaved H200) as (saved & Hsent & _ & Hrole & Hcls).
  exists saved, w'. destruct res as [st pl]. cbn in H200, Hsent. subst st pl.
  by repeat split.
Defined.

Lemma other_roles_have_no_class_witness :
  (∃ saved w',
     post_api_teachers (env := reliable_env) body_plain_teacher sample_world
     = (inr (Response 201 (json_teacher saved)), w')
     ∧ field "classTeacherClass" body_plain_teacher = JStr "Grade 1"
     ∧ t_classTeacherClass saved = "")
  ∧ (∃ saved w',
       patch_api_teachers_id (env := reliable_env) 0 body_demote sample_world
       = (inr (Response 200 (json_teacher saved)), w')
       ∧ field "classTeacherClass" body_demote = JStr "Grade 1"
       ∧ t_classTeacherClass saved = "").
Proof.
  split.
  - destruct (proj1 (other_roles_have_no_class (env := reliable_env) 0 body_plain_teacher
                       sample_world ltac:(done)))
      as (res & w' & Hrun & _ & Hok & Hsaved & _).
    assert (H201 : status res = 201).
    { apply (Hok "Dee" "Science" "Teacher" "dee@school.example"); done. }
    destruct (Hsaved H201) as (saved & Hsent & _ & Hcls).
    exists saved, w'. destruct res as [st pl]. cbn in H201, Hsent. subst st pl.
    by repeat split.
  - destruct (proj2 (other_roles_have_no_class (env := reliable_env) 0 body_demote
                       sample_world ltac:(done)) teacher_A eq_refl)
      as (res & w' & Hrun & _ & Hok & Hsaved & _).
    assert (H200 : status res = 200) by (apply Hok; done).
    destruct (Hsaved H200) as (saved & Hsent & _ & Hcls).
    exists saved, w'. destruct res as [st pl]. cbn in H200, Hsent. subst st pl.
    by repeat split.
Defined.

Lemma sample_world_exclusive : exclusive (teachers sample_world).
Proof.
  intros t1 t2 cls H1 H2 _ [Hr1 Hc1] [Hr2 Hc2]. cbn in H1, H2. set_unfold.
  destruct H1 as [-> | [-> | [-> | []]]], H2 as [-> | [-> | [-> | []]]];
    cbn in *; congruence.
Qed.

Lemma self_reassignment_succeeds_witness :
  ∃ saved w',
    patch_api_teachers_id (env := reliable_env) 0 body_same_class sample_world
    = (inr (Response 200 (json_teacher saved)), w')
    ∧ class_teacher_of "Grade 1" teacher_A
    ∧ class_teacher_of "Grade 1" saved.
Proof.
  destruct (self_reassignment_succeeds (env := reliable_env) 0 body_same_class
              sample_world teacher_A "Grade 1" eq_refl sample_world_exclusive
              ltac:(done) ltac:(done) eq_refl eq_refl)
    as (_ & res & w' & Hrun & _ & Hok & Hsaved & _).
  assert (H200 : status res = 200) by (apply Hok; done).
  destruct (Hsaved H200) as (saved & Hsent & _ & Hct).
  exists saved, w'. destruct res as [st pl]. cbn in H200, Hsent. subst st pl.
  split; [done |]. split; [done | exact Hct].
Defined.

Lemma failed_send_aborts_the_rest :
  map t_email (List.filter (λ t, nonempty (t_email t)) (teachers sample_world))
  = ["ann@school.example"; "ben@school.example"; "cy@school.example"]
  ∧ ∃ saved w',
      post_api_announcements (env := reference_env ["ann@school.example"])
        body_announcement sample_world
      = (inr (Response 201 (json_announcement saved)), w')
      ∧ map m_to (outbox w') = ["ann@school.example"]
      ∧ console w'
        = [console_log "📧 SendGrid: Sending announcement to teachers...";
           console_error "SendGrid error:" "Bad Request"].
Proof.
  split; [vm_compute; reflexivity |].
  eexists _, _. split; [vm_compute; reflexivity |]. split; reflexivity.
Qed.

Lemma dispatch_stops_at_first_failure_witness :
  (∃ w', sendAnnouncementEmailToTeachers (env := reliable_env)
           "School closed Friday" sample_world = (inr tt, w')
         ∧ map m_to (outbox w')
           = ["ann@school.example"; "ben@school.example"; "cy@school.example"])
  ∧ (∃ w', sendAnnouncementEmailToTeachers (env := reference_env ["ben@school.example"])
             "School closed Friday" sample_world = (inr tt, w')
           ∧ map m_to (outbox w') = ["ann@school.example"; "ben@school.example"]).
Proof.
  split.
  - destruct (proj1 (proj2 (dispatch_stops_at_first_failure (env := reliable_env)
                              "School closed Friday" sample_world)))
      as (w' & Hrun & _ & Hall & _).
    exists w'. split; [done |].
    destruct Hall as [-> _]; [by repeat constructor | reflexivity].
  - destruct (proj1 (proj2 (dispatch_stops_at_first_failure
                              (env := reference_env ["ben@school.example"])
                              "School closed Friday" sample_world)))
      as (w' & Hrun & _ & _ & Hfail).
    exists w'. split; [done |].
    destruct (Hfail [teacher_A] teacher_B [teacher_C]
                (Exn (Some "Bad Request") "Bad Request")) as [-> _];
      [reflexivity | by repeat constructor | reflexivity | reflexivity].
Defined.

Lemma missing_field_is_rejected_witness :
  post_api_students (env := reliable_env) ∅ sample_world
  = (inr (Response 400 (json_error "name, age, class, feesDue are required")), sample_world)
  ∧ post_api_students_id_payments (env := reliable_env) 99 ∅ sample_world
    = (inr (Response 400 (json_error "amount and date are required")), sample_world)
  ∧ post_api_teachers (env := reliable_env) body_no_name sample_world
    = (inr (Response 400 (json_error "name, subject, role, email are required")),
       sample_world)
  ∧ post_api_announcements (env := reliable_env) ∅ sample_world
    = (inr (Response 400 (json_error "text is required")), sample_world).
Proof.
  destruct (missing_field_is_rejected (env := reliable_env) 99 ∅ sample_world)
    as ([Hs _] & [Hp _] & _ & [Ha _]).
  destruct (missing_field_is_rejected (env := reliable_env) 99 body_no_name sample_world)
    as (_ & _ & [Ht _] & _).
  split; [by apply Hs |]. split; [by apply Hp |]. split; [by apply Ht | by apply Ha].
Defined.

Lemma student_is_created_as_submitted_witness :
  ∃ w',
    post_api_students (env := reliable_env) body_student sample_world
    = (inr (Response 201 (json_student (Student 4 "Zed" 7 "Grade 1" 300 []))), w')
    ∧ students w' = [student_S; Student 4 "Zed" 7 "Grade 1" 300 []].
Proof.
  destruct (student_is_created_as_submitted (env := reliable_env) body_student
              sample_world "Zed" "Grade 1" 7 300)
    as (saved & w' & Hrun & -> & Hstored & _); try done.
  by exists w'.
Defined.

Lemma unknown_identifier_is_not_found_witness :
  post_api_students_id_payments (env := reliable_env) 99 body_payment school_world
  = (inr (Response 404 (json_error "Student not found")), school_world)
  ∧ patch_api_teachers_id (env := reliable_env) 99 body_rename school_world
    = (inr (Response 404 (json_error "Teacher not found")), school_world)
  ∧ patch_api_classes_id (env := reliable_env) 99 body_class_patch school_world
    = (inr (Reply 404 (json_payload (json_error "Class not found"))), school_world).
Proof.
  destruct (unknown_identifier_is_not_found (env := reliable_env) 99 body_payment
              school_world) as ([_ Hp] & _); [done |].
  destruct (unknown_identifier_is_not_found (env := reliable_env) 99 body_rename
              school_world) as (_ & Ht & _).
  destruct (unknown_identifier_is_not_found (env := reliable_env) 99 body_class_patch
              school_world) as (_ & _ & Hc).
  split; [by apply Hp |]. split; [by apply Ht | by apply Hc].
Defined.

Lemma class_teacher_without_class_is_created_witness :
  ∃ w',
    post_api_teachers (env := reliable_env) body_class_teacher_no_class sample_world
    = (inr (Response 201 (json_teacher
              (Teacher 4 "Eve" "History" "Class Teacher" "" "eve@school.example"))), w').
Proof.
  destruct (class_teacher_without_class_is_created (env := reliable_env)
              body_class_teacher_no_class sample_world
              "Eve" "History" "eve@school.example")
    as (saved & w' & Hrun & -> & _); try done.
  by exists w'.
Defined.

Lemma update_into_a_held_class_is_refused_witness :
  ∃ existing,
    existing ∈ teachers sample_world ∧ class_teacher_of "Grade 1" existing
    ∧ t_id existing ≠ 1
    ∧ patch_api_teachers_id (env := reliable_env) 1 body_same_class sample_world
      = (inr (Response 400 (json_error
                ("Class " ++ dquote ++ "Grade 1" ++ dquote
                 ++ " already has a class teacher (" ++ t_name existing ++ ")."))),
         sample_world).
Proof.
  apply (update_into_a_held_class_is_refused (env := reliable_env) 1 body_same_class
           sample_world teacher_B teacher_A "Grade 1"); try done.
  set_solver.
Defined.

Lemma second_class_teacher_is_refused_witness :
  ∃ saved w1,
    post_api_teachers (env := reliable_env) (body_class_teacher "Ann" "Grade 1") empty_world
    = (inr (Response 201 (json_teacher saved)), w1)
    ∧ t_name saved = "Ann" ∧ class_teacher_of "Grade 1" saved
    ∧ post_api_teachers (env := reliable_env) (body_class_teacher "Bo" "Grade 1") w1
      = (inr (Response 400 (json_error
                ("Class " ++ dquote ++ "Grade 1" ++ dquote
                 ++ " already has a class teacher (Ann)."))), w1).
Proof.
  apply (second_class_teacher_is_refused (env := reliable_env)
           (body_class_teacher "Ann" "Grade 1") (body_class_teacher "Bo" "Grade 1")
           empty_world "Ann" "Science" "new@school.example"
           "Bo" "Science" "new@school.example" "Grade 1"); try done.
  intros t Hin. by apply elem_of_nil in Hin.
Defined.

Lemma leaving_frees_the_class_witness :
  (∃ saved w2,
     post_api_teachers (env := reliable_env) (body_class_teacher "Bo" "Grade 1")
       (snd (delete_api_teachers_id (env := reliable_env) 0 sample_world))
     = (inr (Response 201 (json_teacher saved)), w2)
     ∧ class_teacher_of "Grade 1" saved)
  ∧ (∃ saved w2,
       post_api_teachers (env := reliable_env) (body_class_teacher "Bo" "Grade 1")
         (snd (patch_api_teachers_id (env := reliable_env) 0 body_demote sample_world))
       = (inr (Response 201 (json_teacher saved)), w2)
       ∧ class_teacher_of "Grade 1" saved).
Proof.
  destruct (leaving_frees_the_class (env := reliable_env) 0
              (body_class_teacher "Bo" "Grade 1") sample_world teacher_A
              "Bo" "Science" "new@school.example" "Grade 1" eq_refl
              sample_world_exclusive)
    as [Hdelete Hdemote]; try done.
  split; [exact Hdelete |].
  eapply (Hdemote body_demote); [done | | ].
  - vm_compute. reflexivity.
  - reflexivity.
Defined.

Lemma class_update_is_type_guarded_witness :
  ∃ w',
    patch_api_classes_id (env := reliable_env) 10 body_class_patch school_world
    = (inr (Reply 200 (json_class (Class 10 "Grade 1" "Nobody on the staff" ""))), w').
Proof.
  destruct (class_update_is_type_guarded (env := reliable_env) 10 body_class_patch
              school_world class_1 eq_refl eq_refl)
    as (saved & w' & Hrun & [Ht _] & [_ Hl] & Hname & Hid & _).
  exists w'. rewrite Hrun. do 3 f_equal.
  destruct saved as [i n t l]. cbn in *.
  specialize (Ht eq_refl). injection Ht as <-. rewrite Hl by done. by subst.
Defined.

Lemma sample_world_consistent : consistent sample_world.
Proof.
  split; [| split].
  - by repeat constructor.
  - by repeat constructor.
  - exact sample_world_exclusive.
Qed.

Lemma exclusivity_is_kept_witness :
  consistent
    (respond_all (env := reliable_env)
       [Served (POST_teachers (body_class_teacher "Bo" "Grade 1"));
        Served (PATCH_teachers 1 body_same_class);
        Served (DELETE_teachers 0);
        Served (POST_teachers (body_class_teacher "Bo" "Grade 1"));
        GET_teachers]
       sample_world).
Proof. apply exclusivity_is_kept, sample_world_consistent. Defined.

Lemma payments_accumulate_in_order_witness :
  ∃ s' w',
    Student_findById 3 w' = (inr (Some s'), w')
    ∧ map (λ p, (amount p, date p)) (s_fees_payments s')
      = [(100%Z, "2024-01-01"); (50%Z, "2024-02-01")]
    ∧ s_fees_due s' = 500%Z.
Proof.
  destruct (payments_accumulate_in_order (env := reliable_env) 3
              [(100%Z, "2024-01-01"); (50%Z, "2024-02-01")] sample_world student_S
              eq_refl eq_refl)
    as (s' & Hfind & Hpay & Hdue & _).
  - by repeat constructor.
  - by eexists s', _.
Defined.

Lemma empty_string_update_is_not_saved_witness :
  ∃ res w',
    patch_api_students_id (env := reliable_env) 3 body_empty_name sample_world
    = (inr res, w')
    ∧ status res = 500 ∧ students w' = students sample_world.
Proof.
  apply (proj1 (empty_string_update_is_not_saved (env := reliable_env) 3 body_empty_name
                  sample_world) student_S eq_refl).
  by left.
Defined.
